(** * Sarah's Reward Tracker: a shallow embedding of [server.js]

    The Express handlers of [server.js] are embedded as functions over an
    explicit model of the PostgreSQL store they talk to.

    Conventions of the embedding.
    - A [DATE] value, and the ['YYYY-MM-DD'] string that denotes it in a
      request body or in a query parameter, is the number of days since
      1970-01-01 (a [Z]).  A JavaScript [Date] object is its time value,
      the number of milliseconds since the epoch, as in ECMA-262.
    - A request value bound for an [INTEGER] column is an integer, a [Z];
      the range of the column type is not part of the model, nor is the
      length bound of a [VARCHAR].  A string is its sequence of characters.
    - A JavaScript number that takes part in floating-point arithmetic
      (the test percentage) is an IEEE-754 binary64 value, a [spec_float].
    - [SERIAL] keys come from one sequence per table, which [DELETE] does
      not rewind.  The [created_at] columns are never read by the server
      and are left out.
    - A [pool.query] either returns or throws; the one failure of the store
      that is modelled is the violation of [weekly_awards.week_start UNIQUE].
      What was written before a throw stays written (the handlers open no
      SQL transaction).  Each handler runs to completion before the next
      request is served.
    - The host has a fixed offset [LocalTZA] from UTC, a parameter of
      [getWeekStart] and of the two handlers that call it.  The deployed
      server runs in UTC ([UTC0]), and the properties of the handlers are
      stated there; the section on other time zones says what changes
      elsewhere. *)

From Stdlib Require Import ZArith List Bool String Lia.
From Stdlib Require Import Permutation Sorted DecimalString.
From Stdlib Require Import SpecFloat.
Import ListNotations.

Local Open Scope Z_scope.

(* ================================================================== *)
(** * ECMA-262 dates *)
(* ================================================================== *)

Module JSDate.

(** ** Day number and time within day (ECMA-262, 21.4.1.3) *)

Definition msPerDay : Z := 86400000.
Definition msPerMinute : Z := 60000.

Definition Day (t : Z) : Z := t / msPerDay.
Definition TimeWithinDay (t : Z) : Z := t mod msPerDay.

(** ** Year number (21.4.1.4-7) *)

Definition DaysInYear (y : Z) : Z :=
  if negb (y mod 4 =? 0) then 365
  else if negb (y mod 100 =? 0) then 366
  else if negb (y mod 400 =? 0) then 365
  else 366.

Definition DayFromYear (y : Z) : Z :=
  365 * (y - 1970) + (y - 1969) / 4 - (y - 1901) / 100 + (y - 1601) / 400.

Definition TimeFromYear (y : Z) : Z := msPerDay * DayFromYear y.

(** "The largest integral Number y such that TimeFromYear(y) <= t": a
    first estimate from the mean length of a Gregorian year, corrected by
    at most one year ([JSDateFacts.YearFromTime_spec]). *)
Definition YearFromTime (t : Z) : Z :=
  let y := 1970 + (400 * Day t) / 146097 in
  if Day t <? DayFromYear y then y - 1
  else if DayFromYear (y + 1) <=? Day t then y + 1
  else y.

Definition InLeapYear (t : Z) : Z :=
  if DaysInYear (YearFromTime t) =? 366 then 1 else 0.

(** ** Month and date numbers (21.4.1.8-10) *)

Definition DayWithinYear (t : Z) : Z :=
  Day t - DayFromYear (YearFromTime t).

(** Number of days of the year that precede month [m] (0 = January). *)
Definition DaysBeforeMonth (leap m : Z) : Z :=
  match m with
  | 0 => 0
  | 1 => 31
  | 2 => 59 + leap
  | 3 => 90 + leap
  | 4 => 120 + leap
  | 5 => 151 + leap
  | 6 => 181 + leap
  | 7 => 212 + leap
  | 8 => 243 + leap
  | 9 => 273 + leap
  | 10 => 304 + leap
  | _ => 334 + leap
  end.

Definition MonthFromTime (t : Z) : Z :=
  let d := DayWithinYear t in
  let leap := InLeapYear t in
  if d <? 31 then 0
  else if d <? 59 + leap then 1
  else if d <? 90 + leap then 2
  else if d <? 120 + leap then 3
  else if d <? 151 + leap then 4
  else if d <? 181 + leap then 5
  else if d <? 212 + leap then 6
  else if d <? 243 + leap then 7
  else if d <? 273 + leap then 8
  else if d <? 304 + leap then 9
  else if d <? 334 + leap then 10
  else 11.

Definition DateFromTime (t : Z) : Z :=
  DayWithinYear t - DaysBeforeMonth (InLeapYear t) (MonthFromTime t) + 1.

(** ** Week day (21.4.1.11): 0 is Sunday, 1 is Monday, ..., 6 is Saturday *)

Definition WeekDay (t : Z) : Z := (Day t + 4) mod 7.

(** ** MakeDay and MakeDate (21.4.1.28-29) *)

Definition MakeDay (year month date : Z) : Z :=
  let ym := year + month / 12 in
  let mn := month mod 12 in
  let leap := if DaysInYear ym =? 366 then 1 else 0 in
  DayFromYear ym + DaysBeforeMonth leap mn + date - 1.

Definition MakeDate (day time : Z) : Z := day * msPerDay + time.

(** ** Local time (21.4.1.25-26), for a host whose offset from UTC is the
    constant [LocalTZA] milliseconds *)

Section LocalTime.
Variable LocalTZA : Z.

Definition LocalTime (t : Z) : Z := t + LocalTZA.
Definition UTC (t : Z) : Z := t - LocalTZA.

(** ** The methods of [Date.prototype] used by the server *)

Definition getDay (t : Z) : Z := WeekDay (LocalTime t).
Definition getDate (t : Z) : Z := DateFromTime (LocalTime t).

(** [d.setDate(dt)]: the new time value of [d] (also the method's
    result). *)
Definition setDate (t dt : Z) : Z :=
  let lt := LocalTime t in
  UTC (MakeDate (MakeDay (YearFromTime lt) (MonthFromTime lt) dt)
                (TimeWithinDay lt)).
End LocalTime.

(** [new Date('YYYY-MM-DD')]: a date-only string is UTC midnight. *)
Definition parseDateOnly (d : Z) : Z := MakeDate d 0.

(** [t.toISOString().split('T')[0]]: the UTC calendar day of [t]. *)
Definition toISODate (t : Z) : Z := Day t.

(** The day number of a calendar date, months counted from 1. *)
Definition ymd (y m d : Z) : Z := MakeDay y (m - 1) d.

End JSDate.

(* ================================================================== *)
(** * JavaScript numbers and their string forms *)
(* ================================================================== *)

Module JSNumber.

Definition prec : Z := 53.
Definition emax : Z := 1024.

(** The Number value of an integer literal (round to nearest, ties to
    even; exact up to 2^53). *)
Definition of_Z (z : Z) : spec_float := binary_normalize prec emax z 0 false.

Definition div (x y : spec_float) : spec_float := SFdiv prec emax x y.
Definition mul (x y : spec_float) : spec_float := SFmul prec emax x y.

(** [x >= y]: false as soon as one side is NaN. *)
Definition ge (x y : spec_float) : bool := SFleb y x.

(** [String(n)] for an integer [n]. *)
Definition string_of_Z (z : Z) : string := NilZero.string_of_int (Z.to_int z).

(** The integer nearest to [m * 2^e], the larger one on a tie. *)
Definition round_half_up (m : positive) (e : Z) : Z :=
  match e with
  | Zneg k => (Zpos m + 2 ^ (Zpos k - 1)) / 2 ^ Zpos k
  | _ => Zpos m * 2 ^ e
  end.

(** [x.toFixed(0)] (ECMA-262, 21.1.3.3 with fractionDigits 0).  From
    10^21 on the source prints in exponent notation; a percentage of two
    [INTEGER] scores stays far below, and the digits are printed in full
    here. *)
Definition toFixed0 (x : spec_float) : string :=
  match x with
  | S754_nan => "NaN"
  | S754_infinity false => "Infinity"
  | S754_infinity true => "-Infinity"
  | S754_zero _ => "0"
  | S754_finite s m e =>
      ((if s then "-" else "") ++ string_of_Z (round_half_up m e))%string
  end.

End JSNumber.

(* ================================================================== *)
(** * The store: five tables and their sequences *)
(* ================================================================== *)

Record PianoSession := mkPianoSession
  { ps_id : Z; ps_date : Z; ps_minutes : Z }.

Record WeeklyAward := mkWeeklyAward
  { wa_id : Z; wa_week_start : Z }.

Record TestRecord := mkTestRecord
  { t_id : Z; t_date : Z; t_subject : string;
    t_score : Z; t_max_score : Z; t_awarded : bool }.

Record Incident := mkIncident
  { inc_id : Z; inc_date : Z; inc_note : string }.

Record Transaction := mkTransaction
  { tx_id : Z; tx_date : Z; tx_type : string;
    tx_amount : Z; tx_description : string }.

(** Rows are kept in the order of their insertion; [*_id_seq] is the next
    value of the table's [SERIAL] sequence. *)
Record DB := mkDB
  { piano_sessions : list PianoSession;
    weekly_awards : list WeeklyAward;
    tests : list TestRecord;
    incidents : list Incident;
    transactions : list Transaction;
    piano_sessions_id_seq : Z;
    weekly_awards_id_seq : Z;
    tests_id_seq : Z;
    incidents_id_seq : Z;
    transactions_id_seq : Z }.

(** The store after [initDB] on a fresh database. *)
Definition empty_db : DB := mkDB [] [] [] [] [] 1 1 1 1 1.

(* ================================================================== *)
(** * Queries: a state monad with exceptions that do not roll back *)
(* ================================================================== *)

Inductive pg_error := unique_violation.

Inductive result (A : Type) :=
| Ok (a : A)
| Throw (e : pg_error).
Arguments Ok {A} a.
Arguments Throw {A} e.

Definition Q (A : Type) : Type := DB -> result A * DB.

Definition ret {A} (a : A) : Q A := fun db => (Ok a, db).

Definition bind {A B} (m : Q A) (k : A -> Q B) : Q B :=
  fun db =>
    match m db with
    | (Ok a, db') => k a db'
    | (Throw e, db') => (Throw e, db')
    end.

Declare Scope query_scope.
Delimit Scope query_scope with query.
Notation "x <- m ;; k" := (bind m (fun x => k))
  (at level 61, m at next level, right associativity) : query_scope.
Notation "m ;; k" := (bind m (fun _ => k))
  (at level 61, right associativity) : query_scope.
Local Open Scope query_scope.

(** ** ORDER BY: an insertion sort.  SQL leaves the order of rows with
    equal keys open; here they keep the order of the table. *)

Section OrderBy.
Context {A : Type} (before : A -> A -> bool).

Fixpoint insert_row (x : A) (l : list A) : list A :=
  match l with
  | [] => [x]
  | y :: l' => if before x y then x :: l else y :: insert_row x l'
  end.

Definition order_by (l : list A) : list A := fold_right insert_row [] l.
End OrderBy.

Definition sum_Z (l : list Z) : Z := fold_right Z.add 0 l.

(** ** The statements sent through [pool.query] *)

(** [INSERT INTO piano_sessions (date, minutes) VALUES ($1, $2)] *)
Definition insert_piano_session (date minutes : Z) : Q unit :=
  fun db =>
    (Ok tt,
     mkDB (piano_sessions db
             ++ [mkPianoSession (piano_sessions_id_seq db) date minutes])
          (weekly_awards db) (tests db) (incidents db) (transactions db)
          (piano_sessions_id_seq db + 1) (weekly_awards_id_seq db)
          (tests_id_seq db) (incidents_id_seq db) (transactions_id_seq db)).

(** [SELECT COALESCE(SUM(minutes), 0) as total FROM piano_sessions
     WHERE date >= $1 AND date <= $2] *)
Definition select_week_minutes (d1 d2 : Z) : Q Z :=
  fun db =>
    (Ok (sum_Z (map ps_minutes
                  (filter (fun s => (d1 <=? ps_date s) && (ps_date s <=? d2))
                          (piano_sessions db)))),
     db).

(** [SELECT * FROM weekly_awards WHERE week_start = $1] *)
Definition select_weekly_awards_of (week_start : Z) : Q (list WeeklyAward) :=
  fun db =>
    (Ok (filter (fun a => wa_week_start a =? week_start) (weekly_awards db)),
     db).

(** [INSERT INTO weekly_awards (week_start) VALUES ($1)].  The column is
    [UNIQUE]; the sequence value drawn for a rejected row is lost. *)
Definition insert_weekly_award (week_start : Z) : Q unit :=
  fun db =>
    let taken :=
      existsb (fun a => wa_week_start a =? week_start) (weekly_awards db) in
    let rows :=
      if taken then weekly_awards db
      else weekly_awards db
             ++ [mkWeeklyAward (weekly_awards_id_seq db) week_start] in
    ((if taken then Throw unique_violation else Ok tt),
     mkDB (piano_sessions db) rows (tests db) (incidents db) (transactions db)
          (piano_sessions_id_seq db) (weekly_awards_id_seq db + 1)
          (tests_id_seq db) (incidents_id_seq db) (transactions_id_seq db)).

(** [INSERT INTO transactions (date, type, amount, description)
     VALUES ($1, $2, $3, $4)] *)
Definition insert_transaction (date : Z) (type : string) (amount : Z)
    (description : string) : Q unit :=
  fun db =>
    (Ok tt,
     mkDB (piano_sessions db) (weekly_awards db) (tests db) (incidents db)
          (transactions db
             ++ [mkTransaction (transactions_id_seq db) date type amount
                               description])
          (piano_sessions_id_seq db) (weekly_awards_id_seq db)
          (tests_id_seq db) (incidents_id_seq db) (transactions_id_seq db + 1)).

(** [INSERT INTO tests (date, subject, score, max_score, awarded)
     VALUES ($1, $2, $3, $4, $5)] *)
Definition insert_test (date : Z) (subject : string) (score max_score : Z)
    (awarded : bool) : Q unit :=
  fun db =>
    (Ok tt,
     mkDB (piano_sessions db) (weekly_awards db)
          (tests db
             ++ [mkTestRecord (tests_id_seq db) date subject score max_score
                              awarded])
          (incidents db) (transactions db)
          (piano_sessions_id_seq db) (weekly_awards_id_seq db)
          (tests_id_seq db + 1) (incidents_id_seq db) (transactions_id_seq db)).

(** [INSERT INTO incidents (date, note) VALUES ($1, $2)] *)
Definition insert_incident (date : Z) (note : string) : Q unit :=
  fun db =>
    (Ok tt,
     mkDB (piano_sessions db) (weekly_awards db) (tests db)
          (incidents db ++ [mkIncident (incidents_id_seq db) date note])
          (transactions db)
          (piano_sessions_id_seq db) (weekly_awards_id_seq db)
          (tests_id_seq db) (incidents_id_seq db + 1) (transactions_id_seq db)).

(** [SELECT * FROM transactions WHERE id = $1] *)
Definition select_transaction (id : Z) : Q (list Transaction) :=
  fun db => (Ok (filter (fun t => tx_id t =? id) (transactions db)), db).

(** [DELETE FROM weekly_awards WHERE week_start = $1] *)
Definition delete_weekly_awards_of (week_start : Z) : Q unit :=
  fun db =>
    (Ok tt,
     mkDB (piano_sessions db)
          (filter (fun a => negb (wa_week_start a =? week_start))
                  (weekly_awards db))
          (tests db) (incidents db) (transactions db)
          (piano_sessions_id_seq db) (weekly_awards_id_seq db)
          (tests_id_seq db) (incidents_id_seq db) (transactions_id_seq db)).

(** [DELETE FROM transactions WHERE id = $1] *)
Definition delete_transaction (id : Z) : Q unit :=
  fun db =>
    (Ok tt,
     mkDB (piano_sessions db) (weekly_awards db) (tests db) (incidents db)
          (filter (fun t => negb (tx_id t =? id)) (transactions db))
          (piano_sessions_id_seq db) (weekly_awards_id_seq db)
          (tests_id_seq db) (incidents_id_seq db) (transactions_id_seq db)).

(** [DELETE FROM transactions], ..., [DELETE FROM incidents] *)
Definition delete_all_transactions : Q unit :=
  fun db =>
    (Ok tt,
     mkDB (piano_sessions db) (weekly_awards db) (tests db) (incidents db) []
          (piano_sessions_id_seq db) (weekly_awards_id_seq db)
          (tests_id_seq db) (incidents_id_seq db) (transactions_id_seq db)).

Definition delete_all_piano_sessions : Q unit :=
  fun db =>
    (Ok tt,
     mkDB [] (weekly_awards db) (tests db) (incidents db) (transactions db)
          (piano_sessions_id_seq db) (weekly_awards_id_seq db)
          (tests_id_seq db) (incidents_id_seq db) (transactions_id_seq db)).

Definition delete_all_weekly_awards : Q unit :=
  fun db =>
    (Ok tt,
     mkDB (piano_sessions db) [] (tests db) (incidents db) (transactions db)
          (piano_sessions_id_seq db) (weekly_awards_id_seq db)
          (tests_id_seq db) (incidents_id_seq db) (transactions_id_seq db)).

Definition delete_all_tests : Q unit :=
  fun db =>
    (Ok tt,
     mkDB (piano_sessions db) (weekly_awards db) [] (incidents db)
          (transactions db)
          (piano_sessions_id_seq db) (weekly_awards_id_seq db)
          (tests_id_seq db) (incidents_id_seq db) (transactions_id_seq db)).

Definition delete_all_incidents : Q unit :=
  fun db =>
    (Ok tt,
     mkDB (piano_sessions db) (weekly_awards db) (tests db) []
          (transactions db)
          (piano_sessions_id_seq db) (weekly_awards_id_seq db)
          (tests_id_seq db) (incidents_id_seq db) (transactions_id_seq db)).

(** [ORDER BY date DESC]: [a] may come before [b]. *)
Definition by_date_desc {A} (date : A -> Z) (a b : A) : bool :=
  date b <=? date a.

(** [SELECT * FROM piano_sessions ORDER BY date DESC], and the like for
    [tests] and [incidents] *)
Definition select_piano_sessions : Q (list PianoSession) :=
  fun db => (Ok (order_by (by_date_desc ps_date) (piano_sessions db)), db).

Definition select_tests : Q (list TestRecord) :=
  fun db => (Ok (order_by (by_date_desc t_date) (tests db)), db).

Definition select_incidents : Q (list Incident) :=
  fun db => (Ok (order_by (by_date_desc inc_date) (incidents db)), db).

(** [SELECT * FROM weekly_awards]: no [ORDER BY], the rows as stored *)
Definition select_weekly_awards : Q (list WeeklyAward) :=
  fun db => (Ok (weekly_awards db), db).

(** [SELECT * FROM transactions ORDER BY date DESC, id DESC] *)
Definition tx_before (a b : Transaction) : bool :=
  (tx_date b <? tx_date a)
  || ((tx_date b =? tx_date a) && (tx_id b <=? tx_id a)).

Definition select_transactions : Q (list Transaction) :=
  fun db => (Ok (order_by tx_before (transactions db)), db).

(** [SELECT COALESCE(SUM(amount), 0) as balance FROM transactions] *)
Definition select_balance : Q Z :=
  fun db => (Ok (sum_Z (map tx_amount (transactions db))), db).

(* ================================================================== *)
(** * The HTTP handlers *)
(* ================================================================== *)

(** What a handler sends: [res.json(body)], or
    [res.status(status).json({ error: message })]. *)
Inductive response (B : Type) :=
| json (body : B)
| error (status : Z) (message : string).
Arguments json {B} body.
Arguments error {B} status message.

(** [try { ... } catch (err) { res.status(500).json({ error: message }) }] *)
Definition try_500 {B} (m : Q (response B)) (message : string)
  : DB -> response B * DB :=
  fun db =>
    match m db with
    | (Ok r, db') => (r, db')
    | (Throw _, db') => (error 500 message, db')
    end.

Record data_body := mkData
  { data_balance : Z;
    data_pianoSessions : list PianoSession;
    data_weeklyAwards : list WeeklyAward;
    data_tests : list TestRecord;
    data_incidents : list Incident;
    data_transactions : list Transaction }.

Record piano_body := mkPianoBody
  { piano_success : bool; piano_awarded : bool; piano_weekMinutes : Z }.

Record test_body := mkTestBody
  { test_success : bool; test_awarded : bool; test_percentage : spec_float }.

Record success_body := mkSuccess { success : bool }.

(** The argument of [new Date(...)] in [getWeekStart]: the date string of a
    request, or the [Date] object that the database driver builds for a
    [DATE] column. *)
Inductive date_arg :=
| date_string (d : Z)
| date_object (t : Z).

Section Server.
(** The offset of the host's time zone from UTC, in milliseconds. *)
Variable LocalTZA : Z.

Import JSDate.

Definition new_Date (a : date_arg) : Z :=
  match a with
  | date_string d => parseDateOnly d
  | date_object t => t
  end.

(** The driver reads a [DATE] column as local midnight of that day. *)
Definition pg_date (d : Z) : date_arg :=
  date_object (UTC LocalTZA (MakeDate d 0)).

(** [function getWeekStart(dateStr)] *)
Definition getWeekStart (dateStr : date_arg) : Z :=
  let d := new_Date dateStr in
  let day := getDay LocalTZA d in
  let diff := getDate LocalTZA d - day + (if day =? 0 then -6 else 1) in
  toISODate (setDate LocalTZA d diff).

(** [app.get('/api/data')] *)
Definition get_api_data : DB -> response data_body * DB :=
  try_500
    (pianoSessions <- select_piano_sessions ;;
     weeklyAwards <- select_weekly_awards ;;
     tests <- select_tests ;;
     incidents <- select_incidents ;;
     transactions <- select_transactions ;;
     balance <- select_balance ;;
     ret (json (mkData balance pianoSessions weeklyAwards tests incidents
                       transactions)))
    "Failed to fetch data".

(** [app.post('/api/piano')] *)
Definition post_api_piano (date minutes : Z) : DB -> response piano_body * DB :=
  try_500
    (insert_piano_session date minutes ;;
     let weekStart := getWeekStart (date_string date) in
     let weekEnd := new_Date (date_string weekStart) in
     let weekEnd := setDate LocalTZA weekEnd (getDate LocalTZA weekEnd + 6) in
     let weekEndStr := toISODate weekEnd in
     weekMinutes <- select_week_minutes weekStart weekEndStr ;;
     awardCheck <- select_weekly_awards_of weekStart ;;
     awarded <-
       (if (150 <=? weekMinutes) && (List.length awardCheck =? 0)%nat then
          insert_weekly_award weekStart ;;
          insert_transaction date "piano" 50
            ("Weekly piano goal met! (" ++ JSNumber.string_of_Z weekMinutes
               ++ " min)")%string ;;
          ret true
        else ret false) ;;
     ret (json (mkPianoBody true awarded weekMinutes)))
    "Failed to log piano session".

(** [app.post('/api/test')] *)
Definition post_api_test (date : Z) (subject : string) (score maxScore : Z)
  : DB -> response test_body * DB :=
  let percentage :=
    JSNumber.mul (JSNumber.div (JSNumber.of_Z score) (JSNumber.of_Z maxScore))
                 (JSNumber.of_Z 100) in
  let awarded := JSNumber.ge percentage (JSNumber.of_Z 95) in
  try_500
    (insert_test date subject score maxScore awarded ;;
     (if awarded then
        insert_transaction date "test" 100
          (subject ++ " test: " ++ JSNumber.string_of_Z score ++ "/"
             ++ JSNumber.string_of_Z maxScore ++ " ("
             ++ JSNumber.toFixed0 percentage ++ "%)")%string
      else ret tt) ;;
     ret (json (mkTestBody true awarded percentage)))
    "Failed to log test".

(** [note || ''] and [note ? ... : ...]: an absent note and the empty
    string are both falsy. *)
Definition truthy (note : option string) : bool :=
  match note with
  | None => false
  | Some s => negb (String.eqb s "")
  end.

Definition note_text (note : option string) : string :=
  match note with
  | None => ""
  | Some s => s
  end.

(** [app.post('/api/incident')] *)
Definition post_api_incident (date : Z) (note : option string)
  : DB -> response success_body * DB :=
  try_500
    (insert_incident date (if truthy note then note_text note else "") ;;
     insert_transaction date "incident" (-50)
       (if truthy note then ("Incident: " ++ note_text note)%string
        else "Crying incident") ;;
     ret (json (mkSuccess true)))
    "Failed to log incident".

(** [app.delete('/api/transaction/:id')] *)
Definition delete_api_transaction (id : Z) : DB -> response success_body * DB :=
  try_500
    (txResult <- select_transaction id ;;
     match txResult with
     | [] => ret (error 404 "Transaction not found")
     | tx :: _ =>
         (if String.eqb (tx_type tx) "piano" && (0 <? tx_amount tx) then
            let weekStart := getWeekStart (pg_date (tx_date tx)) in
            delete_weekly_awards_of weekStart
          else ret tt) ;;
         delete_transaction id ;;
         ret (json (mkSuccess true))
     end)
    "Failed to delete transaction".

(** [app.post('/api/reset')] *)
Definition post_api_reset : DB -> response success_body * DB :=
  try_500
    (delete_all_transactions ;;
     delete_all_piano_sessions ;;
     delete_all_weekly_awards ;;
     delete_all_tests ;;
     delete_all_incidents ;;
     ret (json (mkSuccess true)))
    "Failed to reset data".

End Server.

(** The deployed server runs with its clock in UTC. *)
Definition UTC0 : Z := 0.

(* ================================================================== *)
(** * The vocabulary of the properties *)
(* ================================================================== *)

(** ** Weeks *)

(** The week of the specification: it starts on Monday.  Day 0,
    1970-01-01, was a Thursday. *)
Definition is_monday (d : Z) : Prop :=
  JSDate.WeekDay (JSDate.parseDateOnly d) = 1.

(** The Monday of the week of day [d]. *)
Definition monday_on_or_before (d : Z) : Z := d - (d + 3) mod 7.

(** ** The piano rule *)

(** Minutes practised in the week that starts on [ws]. *)
Definition week_minutes (ws : Z) (l : list PianoSession) : Z :=
  sum_Z (map ps_minutes
           (filter (fun s => (ws <=? ps_date s) && (ps_date s <=? ws + 6)) l)).

(** Is there an award row for the week that starts on [ws]? *)
Definition has_award (ws : Z) (l : list WeeklyAward) : bool :=
  existsb (fun a => wa_week_start a =? ws) l.

Definition piano_description (total : Z) : string :=
  ("Weekly piano goal met! (" ++ JSNumber.string_of_Z total ++ " min)")%string.

(** ** The test rule *)

(** [(score / maxScore) * 100] in binary64 arithmetic. *)
Definition percentage_of (score maxScore : Z) : spec_float :=
  JSNumber.mul (JSNumber.div (JSNumber.of_Z score) (JSNumber.of_Z maxScore))
               (JSNumber.of_Z 100).

Definition test_description (subject : string) (score maxScore : Z)
    (percentage : spec_float) : string :=
  (subject ++ " test: " ++ JSNumber.string_of_Z score ++ "/"
     ++ JSNumber.string_of_Z maxScore ++ " ("
     ++ JSNumber.toFixed0 percentage ++ "%)")%string.

(** The failure that the specification expects on a zero maximum: an
    error response, and neither a stored test row nor a transaction. *)
Definition fails_without_effect (date : Z) (subject : string)
    (score maxScore : Z) (db : DB) : Prop :=
  (exists status message,
      fst (post_api_test date subject score maxScore db) = error status message)
  /\ tests (snd (post_api_test date subject score maxScore db)) = tests db
  /\ transactions (snd (post_api_test date subject score maxScore db))
     = transactions db.

(** ** Reading *)

(** Rows in descending order of their date. *)
Definition date_desc {A} (date : A -> Z) (l : list A) : Prop :=
  StronglySorted (fun a b => date a >= date b) l.

(** Rows in [ORDER BY date DESC, id DESC]. *)
Definition tx_order (a b : Transaction) : Prop :=
  tx_date a > tx_date b \/ (tx_date a = tx_date b /\ tx_id a >= tx_id b).

(** Two weeks, each with its goal met: 2026-02-02 and 2026-02-09. *)
Definition two_awarded_weeks : DB :=
  snd (post_api_piano UTC0 20493 150
         (snd (post_api_piano UTC0 20486 150 empty_db))).

(** ** Deleting *)

(** [tx.type === 'piano' && tx.amount > 0] *)
Definition is_piano_award (tx : Transaction) : bool :=
  String.eqb (tx_type tx) "piano" && (0 <? tx_amount tx).

(** [transactions.id] is the primary key. *)
Definition transactions_pkey (db : DB) : Prop :=
  NoDup (map tx_id (transactions db)).

(** ** Histories of requests *)

(** The requests that change or read the store. *)
Inductive request :=
| LogPiano (date minutes : Z)
| LogTest (date : Z) (subject : string) (score maxScore : Z)
| LogIncident (date : Z) (note : option string)
| DeleteTransaction (id : Z)
| Reset
| ReadAll.

(** The store after a request has been served, on a host in UTC. *)
Definition serve (db : DB) (r : request) : DB :=
  match r with
  | LogPiano date minutes => snd (post_api_piano UTC0 date minutes db)
  | LogTest date subject score maxScore =>
      snd (post_api_test date subject score maxScore db)
  | LogIncident date note => snd (post_api_incident date note db)
  | DeleteTransaction id => snd (delete_api_transaction UTC0 id db)
  | Reset => snd (post_api_reset db)
  | ReadAll => snd (get_api_data db)
  end.

Definition serve_all (rs : list request) : DB := fold_left serve rs empty_db.

(** The week of a transaction. *)
Definition tx_week (t : Transaction) : Z := monday_on_or_before (tx_date t).

(** The invariant: the weeks of the award rows are, up to their order, the
    weeks of the piano transactions of positive amount, and no week occurs
    twice; transaction ids are distinct and below the sequence. *)
Record paired (db : DB) : Prop := mkPaired
  { paired_weeks :
      Permutation (map wa_week_start (weekly_awards db))
                  (map tx_week (filter is_piano_award (transactions db)));
    paired_unique : NoDup (map wa_week_start (weekly_awards db));
    paired_pkey : transactions_pkey db;
    paired_seq :
      Forall (fun t => tx_id t < transactions_id_seq db) (transactions db) }.

(** The award rows whose week start is [ws]. *)
Definition awards_of_week (ws : Z) (db : DB) : list WeeklyAward :=
  filter (fun a => wa_week_start a =? ws) (weekly_awards db).

(** The ["piano"] transactions of positive amount dated from [ws] to
    [ws + 6]. *)
Definition piano_rewards_of_week (ws : Z) (db : DB) : list Transaction :=
  filter (fun t => is_piano_award t
                   && ((ws <=? tx_date t) && (tx_date t <=? ws + 6)))
         (transactions db).

(** ** Hosts in any time zone *)

(** The store after a request has been served on a host whose offset from
    UTC is [tza] milliseconds. *)
Definition serve_at (tza : Z) (db : DB) (r : request) : DB :=
  match r with
  | LogPiano date minutes => snd (post_api_piano tza date minutes db)
  | LogTest date subject score maxScore =>
      snd (post_api_test date subject score maxScore db)
  | LogIncident date note => snd (post_api_incident date note db)
  | DeleteTransaction id => snd (delete_api_transaction tza id db)
  | Reset => snd (post_api_reset db)
  | ReadAll => snd (get_api_data db)
  end.

Definition serve_all_at (tza : Z) (rs : list request) : DB :=
  fold_left (serve_at tza) rs empty_db.

(** The week key that the piano rule computes for a request dated [d], and
    the one that the deletion computes for a stored row dated [d]. *)
Definition piano_key (tza d : Z) : Z := getWeekStart tza (date_string d).
Definition deletion_key (tza d : Z) : Z := getWeekStart tza (pg_date tza d).

(** Does the handler answer from its [catch] branch? *)
Definition is_500 {B} (r : response B) : bool :=
  match r with
  | error 500 _ => true
  | _ => false
  end.

(** The balance that a read returns. *)
Definition balance (db : DB) : Z :=
  match fst (get_api_data db) with
  | json body => data_balance body
  | error _ _ => 0
  end.

(** The three kinds of transaction that the handlers insert. *)
Definition tx_shape (t : Transaction) : Prop :=
  (tx_type t = "piano"%string /\ tx_amount t = 50)
  \/ (tx_type t = "test"%string /\ tx_amount t = 100)
  \/ (tx_type t = "incident"%string /\ tx_amount t = -50).

(** Keys drawn from a sequence: ascending in the order of the table, and
    below the next value of the sequence. *)
Definition serial {A} (id : A -> Z) (seq : Z) (l : list A) : Prop :=
  StronglySorted (fun a b => id a < id b) l /\ Forall (fun a => id a < seq) l.

(** What every store reached on a host of offset [tza] satisfies. *)
Record wellformed_at (tza : Z) (db : DB) : Prop := mkWellformed
  { wf_award_unique : NoDup (map wa_week_start (weekly_awards db));
    wf_award_keys :
      Forall (fun a => exists d, wa_week_start a = piano_key tza d)
             (weekly_awards db);
    wf_shapes : Forall tx_shape (transactions db);
    wf_piano_sessions :
      serial ps_id (piano_sessions_id_seq db) (piano_sessions db);
    wf_weekly_awards :
      serial wa_id (weekly_awards_id_seq db) (weekly_awards db);
    wf_tests : serial t_id (tests_id_seq db) (tests db);
    wf_incidents : serial inc_id (incidents_id_seq db) (incidents db);
    wf_transactions :
      serial tx_id (transactions_id_seq db) (transactions db) }.

(** The [awarded] flag that a logging handler reports. *)
Definition piano_reported (r : response piano_body) : bool :=
  match r with
  | json body => piano_awarded body
  | error _ _ => false
  end.

Definition test_reported (r : response test_body) : bool :=
  match r with
  | json body => test_awarded body
  | error _ _ => false
  end.

(** Numbers that are not above zero: the zeros, the negative numbers and
    NaN. *)
Definition not_positive (x : spec_float) : Prop :=
  match x with
  | S754_zero _ | S754_finite true _ _ | S754_infinity true | S754_nan => True
  | _ => False
  end.

(** The week keys, as the piano rule computes them, of the ["piano"]
    transactions of positive amount. *)
Definition reward_keys (tza : Z) (db : DB) : list Z :=
  map (fun t => piano_key tza (tx_date t))
      (filter is_piano_award (transactions db)).

(** No key is rewarded twice, and every rewarded key has its award row. *)
Definition single_rewards (tza : Z) (db : DB) : Prop :=
  NoDup (reward_keys tza db)
  /\ incl (reward_keys tza db) (map wa_week_start (weekly_awards db)).

(** The ["piano"] transactions of positive amount whose date has the week
    key [k] on a host of offset [tza]. *)
Definition rewards_of_key (tza k : Z) (db : DB) : list Transaction :=
  filter (fun t => is_piano_award t && (piano_key tza (tx_date t) =? k))
         (transactions db).

(** [l] with rows appended. *)
Definition extends {A} (l l' : list A) : Prop := exists more, l' = l ++ more.

(* ================================================================== *)
(** * Calendar facts *)
(* ================================================================== *)

Module JSDateFacts.
Import JSDate.

Lemma DayFromYear_succ y : DayFromYear (y + 1) = DayFromYear y + DaysInYear y.
Proof.
  unfold DayFromYear, DaysInYear.
  destruct (Z.eqb_spec (y mod 4) 0); cbn [negb];
    [ destruct (Z.eqb_spec (y mod 100) 0); cbn [negb];
      [ destruct (Z.eqb_spec (y mod 400) 0); cbn [negb] | ] | ];
    Z.div_mod_to_equations; lia.
Qed.

(** [YearFromTime] meets its defining property. *)
Lemma YearFromTime_spec t :
  DayFromYear (YearFromTime t) <= Day t < DayFromYear (YearFromTime t + 1).
Proof.
  unfold YearFromTime. generalize (Day t) as d. intro d. cbv zeta.
  set (y := 1970 + 400 * d / 146097).
  assert (Hy : 146097 * (y - 1970) <= 400 * d < 146097 * (y - 1970) + 146097).
  { subst y. Z.div_mod_to_equations. lia. }
  clearbody y.
  destruct (Z.ltb_spec d (DayFromYear y)) as [H|H].
  - unfold DayFromYear in *. Z.div_mod_to_equations. lia.
  - destruct (Z.leb_spec (DayFromYear (y + 1)) d) as [H1|H1];
      unfold DayFromYear in *; Z.div_mod_to_equations; lia.
Qed.

Lemma MonthFromTime_range t : 0 <= MonthFromTime t <= 11.
Proof.
  unfold MonthFromTime. cbv zeta.
  repeat match goal with
         | |- context [if ?c then _ else _] => destruct c
         end; lia.
Qed.

(** Building a day from the year and month of [t] and a date number
    counts from the first day of [t]'s month. *)
Lemma MakeDay_of_time t dt :
  MakeDay (YearFromTime t) (MonthFromTime t) dt = Day t + (dt - DateFromTime t).
Proof.
  pose proof (MonthFromTime_range t) as Hm.
  unfold MakeDay, DateFromTime, DayWithinYear. cbv zeta.
  replace (MonthFromTime t / 12) with 0 by (Z.div_mod_to_equations; lia).
  replace (MonthFromTime t mod 12) with (MonthFromTime t)
    by (Z.div_mod_to_equations; lia).
  rewrite Z.add_0_r. fold (InLeapYear t). lia.
Qed.

Lemma MakeDay_roundtrip t :
  MakeDay (YearFromTime t) (MonthFromTime t) (DateFromTime t) = Day t.
Proof. rewrite MakeDay_of_time. lia. Qed.

Lemma MakeDate_Day_TimeWithinDay t k :
  MakeDate (Day t + k) (TimeWithinDay t) = t + k * msPerDay.
Proof.
  unfold MakeDate, Day, TimeWithinDay, msPerDay.
  Z.div_mod_to_equations. lia.
Qed.

(** [d.setDate(d.getDate() + k)] moves [d] by [k] whole days, whatever
    the (fixed) offset of the host. *)
Lemma setDate_getDate tza t k :
  setDate tza t (getDate tza t + k) = t + k * msPerDay.
Proof.
  unfold setDate, getDate, UTC, LocalTime. cbv zeta.
  rewrite MakeDay_of_time.
  replace (DateFromTime (t + tza) + k - DateFromTime (t + tza)) with k by lia.
  rewrite MakeDate_Day_TimeWithinDay. lia.
Qed.

Lemma Day_parseDateOnly d : Day (parseDateOnly d) = d.
Proof.
  unfold Day, parseDateOnly, MakeDate, msPerDay.
  Z.div_mod_to_equations. lia.
Qed.

Lemma Day_shift d k : Day (parseDateOnly d + k * msPerDay) = d + k.
Proof.
  unfold Day, parseDateOnly, MakeDate, msPerDay.
  Z.div_mod_to_equations. lia.
Qed.

End JSDateFacts.

(* ================================================================== *)
(** * Weeks *)
(* ================================================================== *)

Lemma monday_on_or_before_spec d :
  is_monday (monday_on_or_before d)
  /\ monday_on_or_before d <= d <= monday_on_or_before d + 6.
Proof.
  unfold is_monday, JSDate.WeekDay. rewrite JSDateFacts.Day_parseDateOnly.
  unfold monday_on_or_before. Z.div_mod_to_equations. lia.
Qed.

(** There is only one Monday in the seven days that end with [d]. *)
Lemma monday_on_or_before_unique d m :
  is_monday m -> m <= d <= m + 6 -> m = monday_on_or_before d.
Proof.
  unfold is_monday, JSDate.WeekDay. rewrite JSDateFacts.Day_parseDateOnly.
  unfold monday_on_or_before. intros. Z.div_mod_to_equations. lia.
Qed.

Lemma monday_fixpoint d : is_monday d <-> monday_on_or_before d = d.
Proof.
  unfold is_monday, JSDate.WeekDay. rewrite JSDateFacts.Day_parseDateOnly.
  unfold monday_on_or_before. split; intros; Z.div_mod_to_equations; lia.
Qed.

Lemma in_week_iff d m :
  is_monday m -> (m <= d <= m + 6 <-> monday_on_or_before d = m).
Proof.
  intros Hm. split.
  - intros H. symmetry. now apply monday_on_or_before_unique.
  - intros <-. apply monday_on_or_before_spec.
Qed.

(** ** [getWeekStart] on a host in UTC *)

Section WeekStartUTC.
Import JSDate JSDateFacts.

Lemma getWeekStart_time tza a :
  getWeekStart tza a =
  let t := new_Date a in
  let day := WeekDay (t + tza) in
  Day (t + (if day =? 0 then -6 else 1 - day) * msPerDay).
Proof.
  unfold getWeekStart, toISODate. cbv zeta.
  set (t := new_Date a). unfold getDay, LocalTime.
  generalize (WeekDay (t + tza)) as day. intro day.
  replace (getDate tza t - day + (if day =? 0 then -6 else 1))
    with (getDate tza t + ((if day =? 0 then -6 else 1) - day)) by lia.
  rewrite setDate_getDate.
  destruct (Z.eqb_spec day 0) as [->|_]; reflexivity.
Qed.

Lemma getWeekStart_string_utc d :
  getWeekStart UTC0 (date_string d) = monday_on_or_before d.
Proof.
  rewrite getWeekStart_time. cbn [new_Date]. cbv zeta.
  unfold UTC0. rewrite Z.add_0_r, Day_shift.
  unfold WeekDay. rewrite Day_parseDateOnly. unfold monday_on_or_before.
  destruct (Z.eqb_spec ((d + 4) mod 7) 0); Z.div_mod_to_equations; lia.
Qed.

Lemma pg_date_utc d : pg_date UTC0 d = date_object (parseDateOnly d).
Proof. unfold pg_date, UTC, UTC0, parseDateOnly. f_equal. lia. Qed.

Lemma getWeekStart_pg_date_utc d :
  getWeekStart UTC0 (pg_date UTC0 d) = monday_on_or_before d.
Proof.
  rewrite pg_date_utc, <- getWeekStart_string_utc.
  rewrite !getWeekStart_time. reflexivity.
Qed.

(** [weekEnd.setDate(weekEnd.getDate() + 6)] on [new Date(weekStart)] *)
Lemma weekEnd_string tza ws :
  toISODate (setDate tza (new_Date (date_string ws))
               (getDate tza (new_Date (date_string ws)) + 6)) = ws + 6.
Proof.
  rewrite setDate_getDate. cbn [new_Date]. unfold toISODate.
  apply Day_shift.
Qed.
End WeekStartUTC.

(* ================================================================== *)
(** * List facts used below *)
(* ================================================================== *)

Lemma filter_none_existsb {A} (f : A -> bool) l :
  (List.length (filter f l) =? 0)%nat = negb (existsb f l).
Proof.
  induction l as [|x l IH]; cbn; [reflexivity|].
  destruct (f x); cbn; [reflexivity | exact IH].
Qed.

Lemma existsb_false_iff {A} (f : A -> bool) l :
  existsb f l = false <-> forall x, In x l -> f x = false.
Proof.
  split.
  - intros H x Hx. destruct (f x) eqn:E; [|reflexivity].
    rewrite <- H. symmetry. apply existsb_exists. now exists x.
  - intros H. destruct (existsb f l) eqn:E; [|reflexivity].
    apply existsb_exists in E as (x & Hx & Hfx). rewrite (H x Hx) in Hfx.
    discriminate.
Qed.

Lemma sum_Z_app l1 l2 : sum_Z (l1 ++ l2) = sum_Z l1 + sum_Z l2.
Proof.
  unfold sum_Z.
  induction l1 as [|x l1 IH]; cbn [app fold_right]; [reflexivity | lia].
Qed.

(* ================================================================== *)
(** * The piano rule *)
(* ================================================================== *)

Lemma has_award_false ws l :
  has_award ws l = false <-> forall a, In a l -> wa_week_start a <> ws.
Proof.
  unfold has_award. rewrite existsb_false_iff.
  split; intros H a Ha; specialize (H a Ha).
  - now apply Z.eqb_neq.
  - now apply Z.eqb_neq.
Qed.

(** What [POST /api/piano] does on a host in UTC, statement by statement. *)
Lemma post_api_piano_run db date minutes :
  let ws := monday_on_or_before date in
  let sessions :=
    piano_sessions db
      ++ [mkPianoSession (piano_sessions_id_seq db) date minutes] in
  let total := week_minutes ws sessions in
  let awarded := (150 <=? total) && negb (has_award ws (weekly_awards db)) in
  post_api_piano UTC0 date minutes db =
  (json (mkPianoBody true awarded total),
   mkDB sessions
        (if awarded
         then weekly_awards db ++ [mkWeeklyAward (weekly_awards_id_seq db) ws]
         else weekly_awards db)
        (tests db) (incidents db)
        (if awarded
         then transactions db
                ++ [mkTransaction (transactions_id_seq db) date "piano" 50
                                  (piano_description total)]
         else transactions db)
        (piano_sessions_id_seq db + 1)
        (if awarded then weekly_awards_id_seq db + 1
         else weekly_awards_id_seq db)
        (tests_id_seq db) (incidents_id_seq db)
        (if awarded then transactions_id_seq db + 1
         else transactions_id_seq db)).
Proof.
  cbv zeta. unfold post_api_piano.
  rewrite weekEnd_string, getWeekStart_string_utc.
  unfold try_500, bind, insert_piano_session, select_week_minutes,
    select_weekly_awards_of. cbn [piano_sessions weekly_awards].
  rewrite filter_none_existsb. fold (has_award (monday_on_or_before date) (weekly_awards db)).
  fold (week_minutes (monday_on_or_before date)
          (piano_sessions db
             ++ [mkPianoSession (piano_sessions_id_seq db) date minutes])).
  destruct (150 <=? _) ; cbn [andb]; [|reflexivity].
  destruct (has_award _ _) eqn:Ha; cbn [negb]; [reflexivity|].
  unfold insert_weekly_award, insert_transaction, ret.
  cbn [piano_sessions weekly_awards tests incidents transactions
       piano_sessions_id_seq weekly_awards_id_seq tests_id_seq
       incidents_id_seq transactions_id_seq].
  unfold has_award in Ha. rewrite Ha. reflexivity.
Qed.


(* ================================================================== *)
(** * Facts on binary64 rounding *)
(* ================================================================== *)

Module JSNumberFacts.
Import JSNumber.

Lemma shr_1_m mrs : 0 <= shr_m mrs -> shr_m (shr_1 mrs) = shr_m mrs / 2.
Proof.
  destruct mrs as [m r s]. cbn [shr_m]. intros Hm.
  destruct m as [|p|p]; [reflexivity| |lia].
  destruct p as [p|p|]; cbn [shr_1 shr_m].
  - rewrite Pos2Z.inj_xI. Z.div_mod_to_equations. lia.
  - rewrite Pos2Z.inj_xO. Z.div_mod_to_equations. lia.
  - reflexivity.
Qed.

Lemma iter_shr_1_m n : forall mrs,
  0 <= shr_m mrs -> shr_m (iter_pos shr_1 n mrs) = shr_m mrs / 2 ^ Zpos n.
Proof.
  induction n as [n IH|n IH|]; intros mrs Hm; cbn [iter_pos].
  - assert (H1 : 0 <= shr_m (shr_1 mrs)).
    { rewrite shr_1_m by exact Hm. apply Z.div_pos; lia. }
    assert (H2 : 0 <= shr_m (iter_pos shr_1 n (shr_1 mrs))).
    { rewrite IH by exact H1. apply Z.div_pos; [exact H1|].
      apply Z.pow_pos_nonneg; lia. }
    rewrite IH by exact H2. rewrite IH by exact H1.
    rewrite shr_1_m by exact Hm.
    rewrite !Z.div_div by (try apply Z.pow_pos_nonneg; lia).
    f_equal.
    assert (E : 2 ^ Zpos n~1 = 2 * (2 ^ Zpos n * 2 ^ Zpos n)).
    { rewrite <- Z.pow_add_r, <- Z.pow_succ_r by lia. f_equal. lia. }
    rewrite E. lia.
  - assert (H2 : 0 <= shr_m (iter_pos shr_1 n mrs)).
    { rewrite IH by exact Hm. apply Z.div_pos; [exact Hm|].
      apply Z.pow_pos_nonneg; lia. }
    rewrite IH by exact H2. rewrite IH by exact Hm.
    rewrite !Z.div_div by (try apply Z.pow_pos_nonneg; lia).
    f_equal. rewrite <- Z.pow_add_r by lia. f_equal. lia.
  - rewrite shr_1_m by exact Hm. reflexivity.
Qed.

Lemma digits2_pos_lower p : 2 ^ (Zpos (digits2_pos p) - 1) <= Zpos p.
Proof.
  induction p as [p IH|p IH|]; cbn [digits2_pos].
  - rewrite Pos2Z.inj_succ.
    replace (Z.succ (Zpos (digits2_pos p)) - 1)
      with (Z.succ (Zpos (digits2_pos p) - 1)) by lia.
    rewrite Z.pow_succ_r by lia. lia.
  - rewrite Pos2Z.inj_succ.
    replace (Z.succ (Zpos (digits2_pos p)) - 1)
      with (Z.succ (Zpos (digits2_pos p) - 1)) by lia.
    rewrite Z.pow_succ_r by lia. lia.
  - cbn. lia.
Qed.

(** Shifting out fewer bits than the number has leaves a positive number. *)
Lemma shr_positive m r s e n :
  n < Zpos (digits2_pos m) ->
  exists q, shr_m (fst (shr (Build_shr_record (Zpos m) r s) e n)) = Zpos q.
Proof.
  intros Hn. unfold shr.
  destruct n as [|k|k]; cbn [fst shr_m]; try (now exists m).
  rewrite iter_shr_1_m by (cbn; lia). cbn [shr_m].
  pose proof (digits2_pos_lower m) as Hd.
  assert (Hk : 2 ^ Zpos k <= 2 ^ (Zpos (digits2_pos m) - 1))
    by (apply Z.pow_le_mono_r; lia).
  assert (Hp : 0 < 2 ^ Zpos k) by (apply Z.pow_pos_nonneg; lia).
  assert (Hq : 1 <= Zpos m / 2 ^ Zpos k).
  { apply Z.div_le_lower_bound; lia. }
  destruct (Zpos m / 2 ^ Zpos k) as [|q|q]; try lia. now exists q.
Qed.

Lemma shr_exponent mrs e n : e <= snd (shr mrs e n).
Proof. unfold shr. destruct n; cbn [snd]; lia. Qed.

Lemma fexp_shift_lt m e :
  -1074 <= e ->
  fexp prec emax (Zdigits2 (Zpos m) + e) - e < Zpos (digits2_pos m).
Proof.
  intros He. unfold fexp, SpecFloat.emin, prec, emax. cbn [Zdigits2]. lia.
Qed.

Lemma round_nearest_even_pos q l :
  exists q', round_nearest_even (Zpos q) l = Zpos q'.
Proof.
  destruct l as [|[| |]]; cbn [round_nearest_even];
    try destruct (Z.even (Zpos q)); eauto;
    exists (q + 1)%positive; reflexivity.
Qed.

Lemma binary_round_aux_shape sx m ex lx :
  -1074 <= ex ->
  match binary_round_aux prec emax sx (Zpos m) ex lx with
  | S754_finite s _ _ | S754_infinity s => s = sx
  | _ => False
  end.
Proof.
  intros He. unfold binary_round_aux, shr_fexp.
  set (n1 := fexp prec emax (Zdigits2 (Zpos m) + ex) - ex).
  assert (Hn1 : n1 < Zpos (digits2_pos m)) by now apply fexp_shift_lt.
  assert (Hrec : exists r s,
             shr_record_of_loc (Zpos m) lx = Build_shr_record (Zpos m) r s)
    by (destruct lx as [|[| |]]; cbn; eauto).
  destruct Hrec as (r & s & ->).
  pose proof (shr_positive m r s ex n1 Hn1) as (q & Hq).
  pose proof (shr_exponent (Build_shr_record (Zpos m) r s) ex n1) as He'.
  destruct (shr _ ex n1) as [mrs' e']. cbn [fst snd] in Hq, He'.
  rewrite Hq.
  destruct (round_nearest_even_pos q (loc_of_shr_record mrs')) as (q' & ->).
  cbn [shr_record_of_loc].
  set (n2 := fexp prec emax (Zdigits2 (Zpos q') + e') - e').
  assert (Hn2 : n2 < Zpos (digits2_pos q')) by (apply fexp_shift_lt; lia).
  pose proof (shr_positive q' false false e' n2 Hn2) as (q'' & Hq'').
  destruct (shr _ e' n2) as [mrs'' e'']. cbn [fst] in Hq''. rewrite Hq''.
  destruct (e'' <=? _); reflexivity.
Qed.

Lemma binary_round_shape sx p :
  match binary_round prec emax sx p 0 with
  | S754_finite s _ _ | S754_infinity s => s = sx
  | _ => False
  end.
Proof.
  unfold binary_round.
  destruct (shl_align p 0 _) as [mz ez] eqn:E.
  apply binary_round_aux_shape.
  unfold shl_align in E.
  destruct (fexp prec emax (Zpos (digits2_pos p) + 0) - 0) eqn:F;
    inversion E; subst; try lia.
  unfold fexp, SpecFloat.emin, prec, emax. lia.
Qed.

(** The Number of an integer has the sign of the integer, and is a zero
    only for 0. *)
Lemma of_Z_shape z :
  match z, of_Z z with
  | Z0, S754_zero false => True
  | Zpos _, (S754_finite false _ _ | S754_infinity false) => True
  | Zneg _, (S754_finite true _ _ | S754_infinity true) => True
  | _, _ => False
  end.
Proof.
  destruct z as [|p|p]; unfold of_Z, binary_normalize; [exact I| |].
  - pose proof (binary_round_shape false p) as H.
    destruct (binary_round _ _ _ _ _) as [[|]|[|]| |[|] m e];
      try contradiction; try discriminate; exact I.
  - pose proof (binary_round_shape true p) as H.
    destruct (binary_round _ _ _ _ _) as [[|]|[|]| |[|] m e];
      try contradiction; try discriminate; exact I.
Qed.

End JSNumberFacts.

(* ================================================================== *)
(** * The test rule *)
(* ================================================================== *)

Lemma post_api_test_run db date subject score maxScore :
  let percentage := percentage_of score maxScore in
  let awarded := JSNumber.ge percentage (JSNumber.of_Z 95) in
  post_api_test date subject score maxScore db =
  (json (mkTestBody true awarded percentage),
   mkDB (piano_sessions db) (weekly_awards db)
        (tests db
           ++ [mkTestRecord (tests_id_seq db) date subject score maxScore
                            awarded])
        (incidents db)
        (if awarded
         then transactions db
                ++ [mkTransaction (transactions_id_seq db) date "test" 100
                      (test_description subject score maxScore percentage)]
         else transactions db)
        (piano_sessions_id_seq db) (weekly_awards_id_seq db)
        (tests_id_seq db + 1) (incidents_id_seq db)
        (if awarded then transactions_id_seq db + 1
         else transactions_id_seq db)).
Proof.
  cbv zeta. unfold post_api_test. fold (percentage_of score maxScore).
  unfold try_500, bind, insert_test.
  destruct (JSNumber.ge _ _); reflexivity.
Qed.

(** The digits printed by [toFixed(0)] for a finite value [m * 2^e] are
    those of an integer at distance at most one half, the larger of the two
    on a tie. *)
Lemma round_half_up_nearest m e :
  let n := JSNumber.round_half_up m e in
  match e with
  | Zneg k => 2 * Zpos m - 2 ^ Zpos k < 2 * n * 2 ^ Zpos k <= 2 * Zpos m + 2 ^ Zpos k
  | _ => n = Zpos m * 2 ^ e
  end.
Proof.
  cbv zeta. destruct e as [|k|k]; cbn [JSNumber.round_half_up]; try reflexivity.
  assert (Hk : 2 ^ Zpos k = 2 * 2 ^ (Zpos k - 1)).
  { rewrite <- Z.pow_succ_r by lia. f_equal. lia. }
  assert (Hp : 0 < 2 ^ (Zpos k - 1)) by (apply Z.pow_pos_nonneg; lia).
  rewrite Hk. generalize dependent (2 ^ (Zpos k - 1)). intros h _ Hh.
  pose proof (Z.div_mod (Zpos m + h) (2 * h) ltac:(lia)) as Hd.
  pose proof (Z.mod_pos_bound (Zpos m + h) (2 * h) ltac:(lia)) as Hb.
  nia.
Qed.



(** The examples of the specification: 95 of 100 is awarded with a
    percentage of exactly 95, 94 of 100 is not. *)
Example test_95_of_100 :
  post_api_test 20486 "Math" 95 100 empty_db =
  (json (mkTestBody true true (JSNumber.of_Z 95)),
   mkDB [] [] [mkTestRecord 1 20486 "Math" 95 100 true] []
        [mkTransaction 1 20486 "test" 100 "Math test: 95/100 (95%)"]
        1 1 2 1 2).
Proof. reflexivity. Qed.

Example test_94_of_100 :
  post_api_test 20486 "Math" 94 100 empty_db =
  (json (mkTestBody true false (JSNumber.of_Z 94)),
   mkDB [] [] [mkTestRecord 1 20486 "Math" 94 100 false] [] [] 1 1 2 1 1).
Proof. reflexivity. Qed.

(** A percentage of 95.5 prints as 96. *)
Example test_191_of_200 :
  transactions (snd (post_api_test 20486 "Math" 191 200 empty_db))
  = [mkTransaction 1 20486 "test" 100 "Math test: 191/200 (96%)"].
Proof. reflexivity. Qed.

(** For every maximum up to 100 and every score up to the maximum, the
    binary64 verdict is the exact one: [score / maxScore >= 95 / 100]. *)
Example awarded_exact_up_to_100 :
  forallb
    (fun maxScore =>
       forallb
         (fun score =>
            Bool.eqb
              (JSNumber.ge (percentage_of score maxScore) (JSNumber.of_Z 95))
              (95 * maxScore <=? 100 * score))
         (map Z.of_nat (seq 0 (S (Z.to_nat maxScore)))))
    (map Z.of_nat (seq 1 100))
  = true.
Proof. vm_compute. reflexivity. Qed.

(** ** A maximum score of zero *)

(** Dividing by a zero never yields a finite number. *)
Lemma div_by_zero_not_finite x :
  match JSNumber.div x (JSNumber.of_Z 0) with
  | S754_nan | S754_infinity _ => True
  | _ => False
  end.
Proof. destruct x as [s|s| |s m e]; exact I. Qed.

(** [score / 0 * 100] is +Infinity, NaN or -Infinity with the sign of the
    score. *)
Lemma percentage_of_zero_max score :
  percentage_of score 0 =
  match score with
  | Z0 => S754_nan
  | Zpos _ => S754_infinity false
  | Zneg _ => S754_infinity true
  end.
Proof.
  unfold percentage_of.
  pose proof (JSNumberFacts.of_Z_shape score) as H.
  destruct score as [|p|p];
    destruct (JSNumber.of_Z _) as [[|]|[|]| |[|] m e];
    try contradiction; reflexivity.
Qed.



(* ================================================================== *)
(** * The incident rule *)
(* ================================================================== *)

Lemma post_api_incident_run db date note :
  post_api_incident date note db =
  (json (mkSuccess true),
   mkDB (piano_sessions db) (weekly_awards db) (tests db)
        (incidents db
           ++ [mkIncident (incidents_id_seq db) date
                 (if truthy note then note_text note else "")])
        (transactions db
           ++ [mkTransaction (transactions_id_seq db) date "incident" (-50)
                 (if truthy note then ("Incident: " ++ note_text note)%string
                  else "Crying incident")])
        (piano_sessions_id_seq db) (weekly_awards_id_seq db)
        (tests_id_seq db) (incidents_id_seq db + 1)
        (transactions_id_seq db + 1)).
Proof. reflexivity. Qed.

(** C6.  Logging an incident always appends one [incidents] row, whose
    note is the empty string when none was given, and one ["incident"]
    transaction of -50, described as ["Incident: <note>"] for a non-empty
    note and as ["Crying incident"] otherwise; nothing else changes and the
    caller receives [success = true]. *)
Theorem post_api_incident_correct db date note :
  let r := fst (post_api_incident date note db) in
  let db' := snd (post_api_incident date note db) in
  let stored := match note with Some s => s | None => ""%string end in
  let description :=
    match note with
    | Some s => if String.eqb s "" then "Crying incident"%string
                else ("Incident: " ++ s)%string
    | None => "Crying incident"%string
    end in
  r = json (mkSuccess true)
  /\ incidents db'
     = incidents db ++ [mkIncident (incidents_id_seq db) date stored]
  /\ transactions db'
     = transactions db
         ++ [mkTransaction (transactions_id_seq db) date "incident" (-50)
               description]
  /\ piano_sessions db' = piano_sessions db
  /\ weekly_awards db' = weekly_awards db
  /\ tests db' = tests db.
Proof.
  cbv zeta. rewrite post_api_incident_run.
  cbn [fst snd incidents transactions piano_sessions weekly_awards tests].
  repeat split.
  - destruct note as [s|]; cbn [truthy note_text]; [|reflexivity].
    destruct (String.eqb_spec s ""); cbn [negb]; congruence.
  - destruct note as [s|]; cbn [truthy note_text]; [|reflexivity].
    destruct (String.eqb s ""); reflexivity.
Qed.

Example incident_without_note :
  transactions (snd (post_api_incident 20486 None empty_db))
  = [mkTransaction 1 20486 "incident" (-50) "Crying incident"].
Proof. reflexivity. Qed.

Example incident_with_note :
  transactions (snd (post_api_incident 20486 (Some "meltdown"%string) empty_db))
  = [mkTransaction 1 20486 "incident" (-50) "Incident: meltdown"].
Proof. reflexivity. Qed.

(* ================================================================== *)
(** * Reading everything and resetting *)
(* ================================================================== *)

Lemma get_api_data_run db :
  get_api_data db =
  (json (mkData (sum_Z (map tx_amount (transactions db)))
                (order_by (by_date_desc ps_date) (piano_sessions db))
                (weekly_awards db)
                (order_by (by_date_desc t_date) (tests db))
                (order_by (by_date_desc inc_date) (incidents db))
                (order_by tx_before (transactions db))),
   db).
Proof. reflexivity. Qed.

Lemma post_api_reset_run db :
  post_api_reset db =
  (json (mkSuccess true),
   mkDB [] [] [] [] []
        (piano_sessions_id_seq db) (weekly_awards_id_seq db)
        (tests_id_seq db) (incidents_id_seq db) (transactions_id_seq db)).
Proof. reflexivity. Qed.

(** C7.  The balance returned by a read is the sum of the amounts of the
    transaction rows present at that moment (0 when there are none); the
    store has no balance of its own; a read leaves the store as it was, so
    that a second read returns what the first did; after a reset the five
    tables are empty and the balance read is 0. *)
Theorem balance_correct db :
  (exists body,
      get_api_data db = (json body, db)
      /\ data_balance body = fold_right Z.add 0 (map tx_amount (transactions db))
      /\ (transactions db = [] -> data_balance body = 0)
      /\ get_api_data (snd (get_api_data db)) = get_api_data db)
  /\ (let db0 := snd (post_api_reset db) in
      fst (post_api_reset db) = json (mkSuccess true)
      /\ piano_sessions db0 = []
      /\ weekly_awards db0 = []
      /\ tests db0 = []
      /\ incidents db0 = []
      /\ transactions db0 = []
      /\ exists body0,
           get_api_data db0 = (json body0, db0)
           /\ data_balance body0 = 0
           /\ data_pianoSessions body0 = []
           /\ data_weeklyAwards body0 = []
           /\ data_tests body0 = []
           /\ data_incidents body0 = []
           /\ data_transactions body0 = []).
Proof.
  split.
  - eexists. rewrite get_api_data_run. split; [reflexivity|].
    cbn [data_balance snd]. split; [reflexivity|]. split.
    + intros ->. reflexivity.
    + apply get_api_data_run.
  - cbv zeta. rewrite post_api_reset_run. cbn [fst snd].
    repeat split. eexists. rewrite get_api_data_run.
    split; [reflexivity|]. repeat split.
Qed.

(** ** ORDER BY sorts and keeps every row *)

Section OrderByFacts.
Context {A : Type} (before : A -> A -> bool).
Hypothesis before_total : forall a b, before a b = false -> before b a = true.
Hypothesis before_trans :
  forall a b c, before a b = true -> before b c = true -> before a c = true.

Lemma insert_row_perm x l : Permutation (x :: l) (insert_row before x l).
Proof.
  induction l as [|y l IH]; cbn [insert_row]; [reflexivity|].
  destruct (before x y); [reflexivity|].
  rewrite perm_swap. now constructor.
Qed.

Lemma order_by_perm l : Permutation l (order_by before l).
Proof.
  induction l as [|x l IH]; cbn [order_by fold_right]; [constructor|].
  fold (order_by before l).
  rewrite <- insert_row_perm. now constructor.
Qed.

Lemma insert_row_sorted x l :
  StronglySorted (fun a b => before a b = true) l ->
  StronglySorted (fun a b => before a b = true) (insert_row before x l).
Proof.
  induction 1 as [|y l Hs IH Hy]; cbn [insert_row].
  - repeat constructor.
  - destruct (before x y) eqn:E.
    + constructor; [now constructor|].
      constructor; [exact E|].
      rewrite Forall_forall in Hy |- *. intros z Hz.
      eapply before_trans; [exact E | now apply Hy].
    + constructor; [exact IH|].
      rewrite Forall_forall in Hy |- *. intros z Hz.
      apply (Permutation_in _ (Permutation_sym (insert_row_perm x l))) in Hz.
      destruct Hz as [<-|Hz]; [now apply before_total | now apply Hy].
Qed.

Lemma order_by_sorted l :
  StronglySorted (fun a b => before a b = true) (order_by before l).
Proof.
  induction l as [|x l IH]; cbn [order_by fold_right]; [constructor|].
  now apply insert_row_sorted.
Qed.
End OrderByFacts.

Lemma StronglySorted_weaken {A} (R S : A -> A -> Prop) l :
  (forall a b, R a b -> S a b) -> StronglySorted R l -> StronglySorted S l.
Proof.
  intros HRS. induction 1 as [|x l Hs IH Hx]; constructor; [exact IH|].
  eapply Forall_impl; [|exact Hx]. intros b. apply HRS.
Qed.

Lemma order_by_date_desc_sorted {A} (date : A -> Z) l :
  StronglySorted (fun a b => date a >= date b)
                 (order_by (by_date_desc date) l).
Proof.
  eapply StronglySorted_weaken;
    [| apply (order_by_sorted (by_date_desc date))].
  - unfold by_date_desc. intros a b H. apply Z.leb_le in H. lia.
  - unfold by_date_desc. intros a b H. apply Z.leb_gt in H.
    apply Z.leb_le. lia.
  - unfold by_date_desc. intros a b c H1 H2.
    apply Z.leb_le in H1, H2. apply Z.leb_le. lia.
Qed.

Lemma tx_before_order a b : tx_before a b = true <-> tx_order a b.
Proof.
  unfold tx_before, tx_order.
  rewrite orb_true_iff, andb_true_iff, Z.ltb_lt, Z.eqb_eq, Z.leb_le. lia.
Qed.

Lemma order_by_tx_sorted l : StronglySorted tx_order (order_by tx_before l).
Proof.
  eapply StronglySorted_weaken; [| apply (order_by_sorted tx_before)].
  - intros a b. apply tx_before_order.
  - intros a b H. apply tx_before_order.
    assert (Hn : ~ tx_order a b)
      by (rewrite <- tx_before_order; congruence).
    unfold tx_order in *. lia.
  - intros a b c H1 H2. apply tx_before_order.
    apply tx_before_order in H1, H2. unfold tx_order in *. lia.
Qed.

(** ** The order of what a read returns *)

(** C8, counterexample.  The awards of a read come in the order of the
    table, here the older week first: they are not in descending order of
    their date. *)
Lemma weekly_awards_not_date_desc :
  exists body,
    get_api_data two_awarded_weeks = (json body, two_awarded_weeks)
    /\ data_weeklyAwards body = [mkWeeklyAward 1 20486; mkWeeklyAward 2 20493]
    /\ ~ date_desc wa_week_start (data_weeklyAwards body).
Proof.
  eexists. split; [apply get_api_data_run|].
  cbn [data_weeklyAwards].
  assert (E : weekly_awards two_awarded_weeks
              = [mkWeeklyAward 1 20486; mkWeeklyAward 2 20493])
    by (vm_compute; reflexivity).
  rewrite E. split; [reflexivity|].
  intros H. inversion H as [|a l _ Hall]; subst.
  inversion Hall as [|b l' Hab _]; subst.
  cbn [wa_week_start] in Hab. lia.
Qed.

(** C8, as amended.  A read returns the balance and every row of the five
    tables; piano sessions, tests and incidents come by descending date,
    transactions by descending date and then descending id; the weekly
    awards are selected without an ordering and come as the table holds
    them. *)
Theorem get_api_data_correct db :
  exists body,
    get_api_data db = (json body, db)
    /\ data_balance body = sum_Z (map tx_amount (transactions db))
    /\ (Permutation (piano_sessions db) (data_pianoSessions body)
        /\ date_desc ps_date (data_pianoSessions body))
    /\ (Permutation (tests db) (data_tests body)
        /\ date_desc t_date (data_tests body))
    /\ (Permutation (incidents db) (data_incidents body)
        /\ date_desc inc_date (data_incidents body))
    /\ (Permutation (transactions db) (data_transactions body)
        /\ StronglySorted tx_order (data_transactions body))
    /\ data_weeklyAwards body = weekly_awards db.
Proof.
  eexists. rewrite get_api_data_run. split; [reflexivity|].
  cbn [data_balance data_pianoSessions data_tests data_incidents
       data_transactions data_weeklyAwards].
  split; [reflexivity|].
  repeat split;
    first [ apply order_by_perm
          | apply order_by_date_desc_sorted
          | apply order_by_tx_sorted ].
Qed.

(* ================================================================== *)
(** * Deleting a transaction *)
(* ================================================================== *)

Lemma is_piano_award_iff tx :
  is_piano_award tx = true <-> tx_type tx = "piano"%string /\ 0 < tx_amount tx.
Proof.
  unfold is_piano_award.
  now rewrite andb_true_iff, String.eqb_eq, Z.ltb_lt.
Qed.

Lemma filter_head_find {A} (f : A -> bool) l :
  find f l = match filter f l with [] => None | x :: _ => Some x end.
Proof.
  induction l as [|y l IH]; cbn [find filter]; [reflexivity|].
  destruct (f y); [reflexivity | exact IH].
Qed.

Lemma delete_api_transaction_run db id :
  delete_api_transaction UTC0 id db =
  match find (fun t => tx_id t =? id) (transactions db) with
  | None => (error 404 "Transaction not found", db)
  | Some tx =>
      (json (mkSuccess true),
       mkDB (piano_sessions db)
            (if is_piano_award tx
             then filter (fun a => negb (wa_week_start a
                                         =? monday_on_or_before (tx_date tx)))
                         (weekly_awards db)
             else weekly_awards db)
            (tests db) (incidents db)
            (filter (fun t => negb (tx_id t =? id)) (transactions db))
            (piano_sessions_id_seq db) (weekly_awards_id_seq db)
            (tests_id_seq db) (incidents_id_seq db) (transactions_id_seq db))
  end.
Proof.
  rewrite filter_head_find.
  unfold delete_api_transaction, try_500, bind, select_transaction.
  destruct (filter _ (transactions db)) as [|tx l]; [reflexivity|].
  fold (is_piano_award tx). rewrite getWeekStart_pg_date_utc.
  destruct (is_piano_award tx); reflexivity.
Qed.


(** ** The frame of a deletion *)

Lemma filter_id_NoDup {A} (key : A -> Z) (x : A) l :
  NoDup (map key l) -> In x l ->
  exists l1 l2,
    l = l1 ++ x :: l2
    /\ filter (fun t => negb (key t =? key x)) l = l1 ++ l2.
Proof.
  induction l as [|y l IH]; intros Hnd Hin; [contradiction|].
  cbn [map] in Hnd. apply NoDup_cons_iff in Hnd as [Hy Hnd].
  destruct Hin as [->|Hin].
  - exists [], l. split; [reflexivity|]. cbn [filter app].
    rewrite Z.eqb_refl. cbn [negb].
    apply forallb_filter_id. apply forallb_forall. intros t Ht.
    apply negb_true_iff, Z.eqb_neq. intros E. apply Hy. rewrite <- E.
    now apply in_map.
  - destruct (IH Hnd Hin) as (l1 & l2 & -> & Hf).
    exists (y :: l1), l2. split; [reflexivity|]. cbn [filter app].
    destruct (Z.eqb_spec (key y) (key x)) as [E|_]; cbn [negb].
    + exfalso. apply Hy. rewrite E. apply in_map.
      apply in_or_app. right. now left.
    + now rewrite Hf.
Qed.

Lemma find_id_NoDup {A} (key : A -> Z) (x : A) l :
  NoDup (map key l) -> In x l -> find (fun t => key t =? key x) l = Some x.
Proof.
  induction l as [|y l IH]; intros Hnd Hin; [contradiction|].
  cbn [map] in Hnd. apply NoDup_cons_iff in Hnd as [Hy Hnd].
  cbn [find]. destruct Hin as [->|Hin]; [now rewrite Z.eqb_refl|].
  destruct (Z.eqb_spec (key y) (key x)) as [E|_]; [|now apply IH].
  exfalso. apply Hy. rewrite E. now apply in_map.
Qed.

(** C9.  Deleting a row that is not a ["piano"] row of positive amount
    takes that one row out of [transactions] and changes nothing else:
    the rows before and after it stay, in their order, and the four other
    tables are as they were. *)
Theorem delete_api_transaction_frame db tx :
  transactions_pkey db ->
  In tx (transactions db) ->
  ~ (tx_type tx = "piano"%string /\ 0 < tx_amount tx) ->
  let r := fst (delete_api_transaction UTC0 (tx_id tx) db) in
  let db' := snd (delete_api_transaction UTC0 (tx_id tx) db) in
  r = json (mkSuccess true)
  /\ (exists l1 l2,
         transactions db = l1 ++ tx :: l2 /\ transactions db' = l1 ++ l2)
  /\ weekly_awards db' = weekly_awards db
  /\ piano_sessions db' = piano_sessions db
  /\ tests db' = tests db
  /\ incidents db' = incidents db.
Proof.
  intros Hpk Hin Hnp. cbv zeta. rewrite delete_api_transaction_run.
  rewrite (find_id_NoDup tx_id tx _ Hpk Hin).
  cbn [fst snd transactions weekly_awards piano_sessions tests incidents].
  destruct (is_piano_award tx) eqn:E;
    [apply is_piano_award_iff in E; contradiction|].
  split; [reflexivity|].
  split; [exact (filter_id_NoDup tx_id tx _ Hpk Hin)|].
  repeat split.
Qed.

(** ** The scenario of the specification

    Monday 2026-02-02 is day 20486. *)

Example piano_goal_met_in_one_call :
  post_api_piano UTC0 20486 150 empty_db =
  (json (mkPianoBody true true 150),
   mkDB [mkPianoSession 1 20486 150] [mkWeeklyAward 1 20486] [] []
        [mkTransaction 1 20486 "piano" 50 "Weekly piano goal met! (150 min)"]
        2 2 1 1 2).
Proof. vm_compute. reflexivity. Qed.

Example piano_second_session_same_week :
  let db1 := snd (post_api_piano UTC0 20486 150 empty_db) in
  post_api_piano UTC0 20489 10 db1 =
  (json (mkPianoBody true false 160),
   mkDB [mkPianoSession 1 20486 150; mkPianoSession 2 20489 10]
        [mkWeeklyAward 1 20486] [] []
        [mkTransaction 1 20486 "piano" 50 "Weekly piano goal met! (150 min)"]
        3 2 1 1 2).
Proof. vm_compute. reflexivity. Qed.

Example piano_award_again_after_deletion :
  let db1 := snd (post_api_piano UTC0 20486 150 empty_db) in
  let db2 := snd (delete_api_transaction UTC0 1 db1) in
  weekly_awards db2 = [] /\ transactions db2 = []
  /\ post_api_piano UTC0 20487 150 db2 =
     (json (mkPianoBody true true 300),
      mkDB [mkPianoSession 1 20486 150; mkPianoSession 2 20487 150]
           [mkWeeklyAward 2 20486] [] []
           [mkTransaction 2 20487 "piano" 50
              "Weekly piano goal met! (300 min)"]
           3 3 1 1 3).
Proof. vm_compute. repeat split. Qed.

(* ================================================================== *)
(** * [getWeekStart] *)
(* ================================================================== *)


(** ** Hosts that are not in UTC

    [getWeekStart] reads the week day and the day of the month in local
    time but parses a date string, and prints its result, in UTC.  East of
    Greenwich the date string of a request still gives the Monday; west of
    it the [Date] object of a stored row does; only in UTC do both. *)

Section OtherTimeZones.
Import JSDate JSDateFacts.

Lemma getWeekStart_string_east tza d :
  0 <= tza < msPerDay ->
  getWeekStart tza (date_string d) = monday_on_or_before d.
Proof.
  intros Htz. rewrite getWeekStart_time. cbn [new_Date]. cbv zeta.
  rewrite Day_shift.
  assert (E : WeekDay (parseDateOnly d + tza) = (d + 4) mod 7).
  { unfold WeekDay. f_equal. f_equal.
    unfold Day, parseDateOnly, MakeDate, msPerDay in *.
    Z.div_mod_to_equations. lia. }
  rewrite E. unfold monday_on_or_before.
  destruct (Z.eqb_spec ((d + 4) mod 7) 0); Z.div_mod_to_equations; lia.
Qed.

Lemma getWeekStart_pg_date_west tza d :
  - msPerDay < tza <= 0 ->
  getWeekStart tza (pg_date tza d) = monday_on_or_before d.
Proof.
  intros Htz. rewrite getWeekStart_time. unfold pg_date. cbn [new_Date].
  cbv zeta. unfold UTC.
  replace (MakeDate d 0 - tza + tza) with (parseDateOnly d)
    by (unfold parseDateOnly; lia).
  unfold WeekDay. rewrite Day_parseDateOnly.
  set (k := if (d + 4) mod 7 =? 0 then -6 else 1 - (d + 4) mod 7).
  assert (E : Day (MakeDate d 0 - tza + k * msPerDay) = d + k).
  { generalize k. intros k'. unfold Day, MakeDate, msPerDay in *.
    Z.div_mod_to_equations. lia. }
  rewrite E. subst k. unfold monday_on_or_before.
  destruct (Z.eqb_spec ((d + 4) mod 7) 0); Z.div_mod_to_equations; lia.
Qed.

(** Five hours west of Greenwich, Monday 2026-02-02 is sent to Tuesday
    2026-01-27. *)
Example getWeekStart_string_west :
  getWeekStart (-300 * msPerMinute) (date_string (ymd 2026 2 2))
  = ymd 2026 1 27.
Proof. vm_compute. reflexivity. Qed.

(** Eight hours east of Greenwich, the stored Monday 2026-02-02 is sent
    to Sunday 2026-02-01. *)
Example getWeekStart_pg_date_east :
  getWeekStart (480 * msPerMinute) (pg_date (480 * msPerMinute) (ymd 2026 2 2))
  = ymd 2026 2 1.
Proof. vm_compute. reflexivity. Qed.
End OtherTimeZones.

Example monday_2026_02_02 :
  JSDate.ymd 2026 2 2 = 20486 /\ is_monday 20486.
Proof. split; vm_compute; reflexivity. Qed.

(* ================================================================== *)
(** * The awards and the piano transactions stay paired *)
(* ================================================================== *)

Lemma paired_empty : paired empty_db.
Proof. split; cbn; constructor. Qed.

(** ** Appending a transaction *)

Lemma pkey_append l seq t :
  NoDup (map tx_id l) -> Forall (fun t => tx_id t < seq) l -> tx_id t = seq ->
  NoDup (map tx_id (l ++ [t]))
  /\ Forall (fun t => tx_id t < seq + 1) (l ++ [t]).
Proof.
  intros Hnd Hall Hid. split.
  - rewrite map_app. cbn [map].
    apply Permutation_NoDup with (l := tx_id t :: map tx_id l).
    + apply Permutation_cons_append.
    + constructor; [|exact Hnd].
      rewrite in_map_iff. intros (u & Hu & Hin).
      rewrite Forall_forall in Hall. specialize (Hall u Hin). lia.
  - apply Forall_app. split.
    + eapply Forall_impl; [|exact Hall]. cbn. intros; lia.
    + constructor; [lia | constructor].
Qed.

Lemma weeks_append_other l t :
  is_piano_award t = false ->
  map tx_week (filter is_piano_award (l ++ [t]))
  = map tx_week (filter is_piano_award l).
Proof.
  intros H. rewrite filter_app. cbn [filter]. rewrite H.
  now rewrite app_nil_r.
Qed.

Lemma weeks_append_award l t :
  is_piano_award t = true ->
  map tx_week (filter is_piano_award (l ++ [t]))
  = map tx_week (filter is_piano_award l) ++ [tx_week t].
Proof.
  intros H. rewrite filter_app. cbn [filter]. rewrite H.
  now rewrite map_app.
Qed.

(** ** Removing a transaction *)

Lemma NoDup_map_filter {A B} (f : A -> B) (p : A -> bool) l :
  NoDup (map f l) -> NoDup (map f (filter p l)).
Proof.
  induction l as [|x l IH]; cbn [map filter]; intros Hnd; [constructor|].
  apply NoDup_cons_iff in Hnd as [Hx Hnd].
  destruct (p x); [|now apply IH].
  cbn [map]. constructor; [|now apply IH].
  rewrite in_map_iff. intros (y & Hy & Hin). apply Hx.
  rewrite <- Hy. apply in_map. apply filter_In in Hin. tauto.
Qed.

Lemma Forall_filter_keep {A} (P : A -> Prop) (p : A -> bool) l :
  Forall P l -> Forall P (filter p l).
Proof.
  rewrite !Forall_forall. intros H x Hx. apply H.
  apply filter_In in Hx. tauto.
Qed.

Lemma map_filter_key {A} (key : A -> Z) (k : Z) l :
  map key (filter (fun a => negb (key a =? k)) l)
  = filter (fun w => negb (w =? k)) (map key l).
Proof.
  induction l as [|x l IH]; cbn [map filter]; [reflexivity|].
  destruct (negb (key x =? k)); cbn [map]; now rewrite IH.
Qed.

Lemma filter_absent (k : Z) l :
  ~ In k l -> filter (fun w => negb (w =? k)) l = l.
Proof.
  intros H. apply forallb_filter_id, forallb_forall. intros w Hw.
  apply negb_true_iff, Z.eqb_neq. intros ->. contradiction.
Qed.

Lemma Permutation_filter_Z (p : Z -> bool) l1 l2 :
  Permutation l1 l2 -> Permutation (filter p l1) (filter p l2).
Proof.
  induction 1 as [|x l1 l2 _ IH|x y l|l1 l2 l3 _ IH1 _ IH2]; cbn [filter].
  - constructor.
  - destruct (p x); [now constructor | exact IH].
  - destruct (p x), (p y); try reflexivity. apply perm_swap.
  - now transitivity (filter p l2).
Qed.

(** Taking the only row of week [k] out of both sides. *)
Lemma weeks_remove aw w1 w2 k :
  NoDup aw -> Permutation aw (w1 ++ k :: w2) ->
  Permutation (filter (fun w => negb (w =? k)) aw) (w1 ++ w2).
Proof.
  intros Hnd Hp.
  pose proof (Permutation_NoDup Hp Hnd) as Hnd'.
  apply NoDup_remove_2 in Hnd'.
  rewrite (Permutation_filter_Z (fun w => negb (w =? k)) _ _ Hp).
  rewrite filter_app. cbn [filter]. rewrite Z.eqb_refl. cbn [negb].
  rewrite !filter_absent; [reflexivity | |];
    intros Hin; apply Hnd'; apply in_or_app; tauto.
Qed.

(** ** Every request preserves the invariant *)

Lemma paired_piano db date minutes :
  paired db -> paired (snd (post_api_piano UTC0 date minutes db)).
Proof.
  intros [Hw Hu Hpk Hseq].
  pose proof (post_api_piano_run db date minutes) as Hrun. cbv zeta in Hrun.
  rewrite Hrun. cbn [snd]. clear Hrun.
  destruct (150 <=? _); cbn [andb]; [|now split].
  destruct (has_award _ _) eqn:Ha; cbn [negb]; [now split|].
  set (t := mkTransaction _ _ _ _ _).
  destruct (pkey_append (transactions db) (transactions_id_seq db) t Hpk Hseq
              eq_refl) as [Hpk' Hseq'].
  split; unfold transactions_pkey;
    cbn [weekly_awards transactions transactions_id_seq].
  - rewrite map_app, weeks_append_award by reflexivity.
    now apply Permutation_app_tail.
  - rewrite map_app. cbn [map wa_week_start].
    apply Permutation_NoDup
      with (l := monday_on_or_before date :: map wa_week_start (weekly_awards db)).
    + apply Permutation_cons_append.
    + constructor; [|exact Hu].
      rewrite in_map_iff. intros (a & Hwa & Hin).
      exact (proj1 (has_award_false _ _) Ha a Hin Hwa).
  - exact Hpk'.
  - exact Hseq'.
Qed.

Lemma paired_test db date subject score maxScore :
  paired db -> paired (snd (post_api_test date subject score maxScore db)).
Proof.
  intros [Hw Hu Hpk Hseq]. rewrite post_api_test_run. cbn [snd].
  destruct (JSNumber.ge _ _); [|now split].
  set (t := mkTransaction _ _ _ _ _).
  destruct (pkey_append (transactions db) (transactions_id_seq db) t Hpk Hseq
              eq_refl) as [Hpk' Hseq'].
  split; unfold transactions_pkey;
    cbn [weekly_awards transactions transactions_id_seq]; try assumption.
  now rewrite weeks_append_other by reflexivity.
Qed.

Lemma paired_incident db date note :
  paired db -> paired (snd (post_api_incident date note db)).
Proof.
  intros [Hw Hu Hpk Hseq]. rewrite post_api_incident_run. cbn [snd].
  set (t := mkTransaction _ _ _ _ _).
  destruct (pkey_append (transactions db) (transactions_id_seq db) t Hpk Hseq
              eq_refl) as [Hpk' Hseq'].
  split; unfold transactions_pkey;
    cbn [weekly_awards transactions transactions_id_seq]; try assumption.
  now rewrite weeks_append_other by reflexivity.
Qed.

Lemma find_some_id (id : Z) l tx :
  find (fun t => tx_id t =? id) l = Some tx -> In tx l /\ tx_id tx = id.
Proof.
  intros H. apply find_some in H as [Hin Hid].
  split; [exact Hin | now apply Z.eqb_eq].
Qed.

Lemma paired_delete db id :
  paired db -> paired (snd (delete_api_transaction UTC0 id db)).
Proof.
  intros [Hw Hu Hpk Hseq]. rewrite delete_api_transaction_run.
  destruct (find _ (transactions db)) as [tx|] eqn:Hfind; [|now split].
  apply find_some_id in Hfind as [Hin <-]. cbn [snd].
  destruct (filter_id_NoDup tx_id tx _ Hpk Hin) as (l1 & l2 & Hl & Hf).
  split; unfold transactions_pkey;
    cbn [weekly_awards transactions transactions_id_seq].
  - rewrite Hf. rewrite Hl in Hw.
    rewrite filter_app, map_app in Hw |- *. cbn [filter] in Hw.
    destruct (is_piano_award tx); [|exact Hw].
    cbn [map] in Hw. rewrite map_filter_key.
    now apply weeks_remove.
  - destruct (is_piano_award tx); [|exact Hu].
    rewrite map_filter_key. now apply NoDup_filter.
  - now apply NoDup_map_filter.
  - now apply Forall_filter_keep.
Qed.

Lemma paired_reset db : paired (snd (post_api_reset db)).
Proof. rewrite post_api_reset_run. split; cbn; constructor. Qed.

Lemma paired_serve db r : paired db -> paired (serve db r).
Proof.
  destruct r; cbn [serve]; intros H.
  - now apply paired_piano.
  - now apply paired_test.
  - now apply paired_incident.
  - now apply paired_delete.
  - apply paired_reset.
  - rewrite get_api_data_run. exact H.
Qed.

Lemma paired_serve_all rs : paired (serve_all rs).
Proof.
  unfold serve_all. generalize paired_empty. generalize empty_db.
  induction rs as [|r rs IH]; intros db H; cbn [fold_left]; [exact H|].
  apply IH. now apply paired_serve.
Qed.

(** ** The invariant, read week by week *)

Lemma length_filter_count_occ {A} (key : A -> Z) (k : Z) l :
  List.length (filter (fun a => key a =? k) l)
  = count_occ Z.eq_dec (map key l) k.
Proof.
  induction l as [|x l IH]; cbn [filter map count_occ]; [reflexivity|].
  destruct (Z.eqb_spec (key x) k) as [E|E];
    destruct (Z.eq_dec (key x) k); try contradiction; cbn [List.length];
    now rewrite IH.
Qed.

Lemma piano_rewards_count ws l :
  is_monday ws ->
  List.length
    (filter (fun t => is_piano_award t
                      && ((ws <=? tx_date t) && (tx_date t <=? ws + 6))) l)
  = count_occ Z.eq_dec (map tx_week (filter is_piano_award l)) ws.
Proof.
  intros Hm. induction l as [|t l IH]; cbn [filter]; [reflexivity|].
  destruct (is_piano_award t); cbn [andb]; [|exact IH].
  cbn [map count_occ]. unfold tx_week at 1.
  pose proof (in_week_iff (tx_date t) ws Hm) as Hw.
  destruct (Z.eq_dec (monday_on_or_before (tx_date t)) ws) as [E|E].
  - apply Hw in E. destruct E as [E1 E2].
    apply Z.leb_le in E1, E2. rewrite E1, E2. cbn [andb List.length].
    now rewrite IH.
  - destruct ((ws <=? tx_date t) && (tx_date t <=? ws + 6)) eqn:B;
      [|exact IH].
    exfalso. apply E, Hw. apply andb_true_iff in B.
    rewrite !Z.leb_le in B. exact B.
Qed.

Lemma awards_unique_per_week rs ws :
  (List.length (awards_of_week ws (serve_all rs)) <= 1)%nat.
Proof.
  unfold awards_of_week. rewrite length_filter_count_occ.
  apply NoDup_count_occ. apply (paired_unique _ (paired_serve_all rs)).
Qed.

(** Every award row carries a Monday. *)
Lemma awards_are_mondays rs a :
  In a (weekly_awards (serve_all rs)) -> is_monday (wa_week_start a).
Proof.
  intros Hin.
  pose proof (paired_weeks _ (paired_serve_all rs)) as Hp.
  assert (Hw : In (wa_week_start a)
                  (map tx_week (filter is_piano_award
                                  (transactions (serve_all rs))))).
  { eapply Permutation_in; [exact Hp | now apply in_map]. }
  apply in_map_iff in Hw as (t & <- & _).
  apply monday_on_or_before_spec.
Qed.



(** The primary key holds in every store that the server can reach. *)
Lemma transactions_pkey_serve_all rs : transactions_pkey (serve_all rs).
Proof. apply (paired_pkey _ (paired_serve_all rs)). Qed.

(** C9 on the deletion of a test reward that an incident row follows. *)
Lemma delete_api_transaction_frame_witness :
  let db := serve_all [LogTest 20486 "Math" 95 100; LogIncident 20487 None] in
  let tx := mkTransaction 1 20486 "test" 100 "Math test: 95/100 (95%)" in
  (transactions_pkey db
   /\ In tx (transactions db)
   /\ ~ (tx_type tx = "piano"%string /\ 0 < tx_amount tx))
  /\ fst (delete_api_transaction UTC0 (tx_id tx) db) = json (mkSuccess true)
  /\ (exists l1 l2,
         transactions db = l1 ++ tx :: l2
         /\ transactions (snd (delete_api_transaction UTC0 (tx_id tx) db))
            = l1 ++ l2)
  /\ weekly_awards (snd (delete_api_transaction UTC0 (tx_id tx) db))
     = weekly_awards db
  /\ piano_sessions (snd (delete_api_transaction UTC0 (tx_id tx) db))
     = piano_sessions db
  /\ tests (snd (delete_api_transaction UTC0 (tx_id tx) db)) = tests db
  /\ incidents (snd (delete_api_transaction UTC0 (tx_id tx) db))
     = incidents db.
Proof.
  cbv zeta.
  assert (Hpk : transactions_pkey
                  (serve_all [LogTest 20486 "Math" 95 100;
                              LogIncident 20487 None])).
  { vm_compute. constructor.
    - intros [H|[]]. discriminate H.
    - constructor; [intros [] | constructor]. }
  assert (Hin : In (mkTransaction 1 20486 "test" 100 "Math test: 95/100 (95%)")
                   (transactions
                      (serve_all [LogTest 20486 "Math" 95 100;
                                  LogIncident 20487 None])))
    by (vm_compute; left; reflexivity).
  assert (Hnp : ~ (tx_type (mkTransaction 1 20486 "test" 100
                              "Math test: 95/100 (95%)") = "piano"%string
                   /\ 0 < tx_amount (mkTransaction 1 20486 "test" 100
                                       "Math test: 95/100 (95%)")))
    by (intros [H _]; discriminate H).
  split; [repeat split; assumption|].
  exact (delete_api_transaction_frame _ _ Hpk Hin Hnp).
Defined.

(* ================================================================== *)
(** * Further properties: the week keys on any host *)
(* ================================================================== *)

Section WeekKeys.
Import JSDate JSDateFacts.

Lemma piano_key_formula tza d :
  - msPerDay < tza < msPerDay ->
  piano_key tza d
  = if 0 <=? tza then monday_on_or_before d
    else monday_on_or_before (d - 1) + 1.
Proof.
  intros Htz. destruct (Z.leb_spec 0 tza) as [H0|H0].
  - apply getWeekStart_string_east. lia.
  - unfold piano_key. rewrite getWeekStart_time. cbn [new_Date]. cbv zeta.
    rewrite Day_shift.
    assert (E : WeekDay (parseDateOnly d + tza) = (d + 3) mod 7).
    { unfold WeekDay.
      replace (Day (parseDateOnly d + tza)) with (d - 1).
      - f_equal. lia.
      - unfold Day, parseDateOnly, MakeDate, msPerDay in *.
        Z.div_mod_to_equations. lia. }
    rewrite E. unfold monday_on_or_before.
    destruct (Z.eqb_spec ((d + 3) mod 7) 0); Z.div_mod_to_equations; lia.
Qed.

Lemma deletion_key_formula tza d :
  - msPerDay < tza < msPerDay ->
  deletion_key tza d
  = if tza <=? 0 then monday_on_or_before d else monday_on_or_before d - 1.
Proof.
  intros Htz. destruct (Z.leb_spec tza 0) as [H0|H0].
  - apply getWeekStart_pg_date_west. lia.
  - unfold deletion_key. rewrite getWeekStart_time. unfold pg_date.
    cbn [new_Date]. cbv zeta. unfold UTC.
    replace (MakeDate d 0 - tza + tza) with (parseDateOnly d)
      by (unfold parseDateOnly; lia).
    unfold WeekDay. rewrite Day_parseDateOnly.
    set (k := if (d + 4) mod 7 =? 0 then -6 else 1 - (d + 4) mod 7).
    assert (E : Day (MakeDate d 0 - tza + k * msPerDay) = d + k - 1).
    { generalize k. intros k'. unfold Day, MakeDate, msPerDay in *.
      Z.div_mod_to_equations. lia. }
    rewrite E. subst k. unfold monday_on_or_before.
    destruct (Z.eqb_spec ((d + 4) mod 7) 0); Z.div_mod_to_equations; lia.
Qed.

Lemma keys_equal_in_utc d :
  - msPerDay < 0 < msPerDay -> piano_key 0 d = deletion_key 0 d.
Proof.
  intros Htz. rewrite piano_key_formula, deletion_key_formula by exact Htz.
  reflexivity.
Qed.

Lemma keys_distinct_off_utc tza d d' :
  - msPerDay < tza < msPerDay -> tza <> 0 ->
  piano_key tza d <> deletion_key tza d'.
Proof.
  intros Htz Hnz. rewrite piano_key_formula, deletion_key_formula by exact Htz.
  destruct (Z.leb_spec 0 tza), (Z.leb_spec tza 0); try lia;
    unfold monday_on_or_before; Z.div_mod_to_equations; lia.
Qed.

(** X1.  The key of the piano rule, for every offset of less than a day:
    at or east of UTC it is the Monday on or before the date; west of UTC
    it is the Tuesday that follows the Monday on or before the previous
    day.  In both cases the date lies in the seven days that start at the
    key, and the key is a fixed point of [getWeekStart]. *)
Theorem piano_key_any_offset tza d :
  - msPerDay < tza < msPerDay ->
  piano_key tza d
  = (if 0 <=? tza then monday_on_or_before d
     else monday_on_or_before (d - 1) + 1)
  /\ piano_key tza d <= d <= piano_key tza d + 6
  /\ piano_key tza (piano_key tza d) = piano_key tza d.
Proof.
  intros Htz. rewrite !piano_key_formula by exact Htz.
  destruct (0 <=? tza); unfold monday_on_or_before;
    repeat split; Z.div_mod_to_equations; lia.
Qed.

Lemma piano_key_any_offset_witness :
  - msPerDay < -18000000 < msPerDay
  /\ piano_key (-18000000) 20486 = 20480
  /\ 20480 <= 20486 <= 20480 + 6
  /\ piano_key (-18000000) 20480 = 20480.
Proof.
  assert (H : - msPerDay < -18000000 < msPerDay) by (unfold msPerDay; lia).
  split; [exact H|].
  destruct (piano_key_any_offset (-18000000) 20486 H) as (E & Hin & Hfix).
  assert (E' : piano_key (-18000000) 20486 = 20480) by (rewrite E; reflexivity).
  rewrite E' in Hin, Hfix. repeat split; try assumption; lia.
Defined.

(** X2.  The key of the deletion, for every offset of less than a day: at
    or west of UTC it is the Monday on or before the stored date; east of
    UTC it is the Sunday before that Monday, a day that lies outside the
    week of the stored date. *)
Theorem deletion_key_any_offset tza d :
  - msPerDay < tza < msPerDay ->
  deletion_key tza d
  = (if tza <=? 0 then monday_on_or_before d else monday_on_or_before d - 1)
  /\ (is_monday (deletion_key tza d) <-> tza <= 0).
Proof.
  intros Htz. rewrite deletion_key_formula by exact Htz.
  split; [reflexivity|].
  unfold is_monday, WeekDay. rewrite Day_parseDateOnly.
  destruct (Z.leb_spec tza 0); unfold monday_on_or_before;
    split; intros; try lia; Z.div_mod_to_equations; lia.
Qed.

Lemma deletion_key_any_offset_witness :
  - msPerDay < 28800000 < msPerDay
  /\ deletion_key 28800000 20486 = 20485.
Proof.
  assert (H : - msPerDay < 28800000 < msPerDay) by (unfold msPerDay; lia).
  split; [exact H|].
  rewrite (proj1 (deletion_key_any_offset 28800000 20486 H)). reflexivity.
Defined.

(** X3.  Off UTC the two call sites of [getWeekStart] never meet: no key
    that the piano rule can create is a key that the deletion can look
    for.  In UTC both give the same key for the same date. *)
Theorem keys_meet_only_in_utc tza :
  - msPerDay < tza < msPerDay ->
  (tza = 0 -> forall d, piano_key tza d = deletion_key tza d)
  /\ (tza <> 0 -> forall d d', piano_key tza d <> deletion_key tza d').
Proof.
  intros Htz. split.
  - intros -> d.
    rewrite piano_key_formula, deletion_key_formula by exact Htz.
    reflexivity.
  - intros Hnz d d'. now apply keys_distinct_off_utc.
Qed.

Lemma keys_meet_only_in_utc_witness :
  - msPerDay < 28800000 < msPerDay
  /\ 28800000 <> 0
  /\ piano_key 28800000 20486 <> deletion_key 28800000 20486.
Proof.
  assert (H : - msPerDay < 28800000 < msPerDay) by (unfold msPerDay; lia).
  assert (Hnz : 28800000 <> 0) by lia.
  split; [exact H|]. split; [exact Hnz|].
  exact (proj2 (keys_meet_only_in_utc 28800000 H) Hnz 20486 20486).
Defined.

End WeekKeys.

(* ================================================================== *)
(** * Further properties: the handlers on any host *)
(* ================================================================== *)

(** [POST /api/piano], statement by statement, for any offset. *)
Lemma post_api_piano_run_at tza db date minutes :
  let ws := piano_key tza date in
  let sessions :=
    piano_sessions db
      ++ [mkPianoSession (piano_sessions_id_seq db) date minutes] in
  let total := week_minutes ws sessions in
  let awarded := (150 <=? total) && negb (has_award ws (weekly_awards db)) in
  post_api_piano tza date minutes db =
  (json (mkPianoBody true awarded total),
   mkDB sessions
        (if awarded
         then weekly_awards db ++ [mkWeeklyAward (weekly_awards_id_seq db) ws]
         else weekly_awards db)
        (tests db) (incidents db)
        (if awarded
         then transactions db
                ++ [mkTransaction (transactions_id_seq db) date "piano" 50
                                  (piano_description total)]
         else transactions db)
        (piano_sessions_id_seq db + 1)
        (if awarded then weekly_awards_id_seq db + 1
         else weekly_awards_id_seq db)
        (tests_id_seq db) (incidents_id_seq db)
        (if awarded then transactions_id_seq db + 1
         else transactions_id_seq db)).
Proof.
  cbv zeta. unfold post_api_piano, piano_key.
  rewrite weekEnd_string.
  generalize (getWeekStart tza (date_string date)) as ws. intros ws.
  unfold try_500, bind, insert_piano_session, select_week_minutes,
    select_weekly_awards_of. cbn [piano_sessions weekly_awards].
  rewrite filter_none_existsb. fold (has_award ws (weekly_awards db)).
  fold (week_minutes ws
          (piano_sessions db
             ++ [mkPianoSession (piano_sessions_id_seq db) date minutes])).
  destruct (150 <=? _) ; cbn [andb]; [|reflexivity].
  destruct (has_award _ _) eqn:Ha; cbn [negb]; [reflexivity|].
  unfold insert_weekly_award, insert_transaction, ret.
  cbn [piano_sessions weekly_awards tests incidents transactions
       piano_sessions_id_seq weekly_awards_id_seq tests_id_seq
       incidents_id_seq transactions_id_seq].
  unfold has_award in Ha. rewrite Ha. reflexivity.
Qed.

(** [DELETE /api/transaction/:id], statement by statement, for any
    offset. *)
Lemma delete_api_transaction_run_at tza db id :
  delete_api_transaction tza id db =
  match find (fun t => tx_id t =? id) (transactions db) with
  | None => (error 404 "Transaction not found", db)
  | Some tx =>
      (json (mkSuccess true),
       mkDB (piano_sessions db)
            (if is_piano_award tx
             then filter (fun a => negb (wa_week_start a
                                         =? deletion_key tza (tx_date tx)))
                         (weekly_awards db)
             else weekly_awards db)
            (tests db) (incidents db)
            (filter (fun t => negb (tx_id t =? id)) (transactions db))
            (piano_sessions_id_seq db) (weekly_awards_id_seq db)
            (tests_id_seq db) (incidents_id_seq db) (transactions_id_seq db))
  end.
Proof.
  rewrite filter_head_find.
  unfold delete_api_transaction, try_500, bind, select_transaction,
    deletion_key.
  destruct (filter _ (transactions db)) as [|tx l]; [reflexivity|].
  generalize (getWeekStart tza (pg_date tza (tx_date tx))) as key.
  intros key. fold (is_piano_award tx).
  destruct (is_piano_award tx); reflexivity.
Qed.

Lemma serve_at_utc db r : serve_at UTC0 db r = serve db r.
Proof. destruct r; reflexivity. Qed.

Lemma serve_all_at_utc rs : serve_all_at UTC0 rs = serve_all rs.
Proof.
  unfold serve_all_at, serve_all. generalize empty_db.
  induction rs as [|r rs IH]; intros db; cbn [fold_left]; [reflexivity|].
  now rewrite serve_at_utc, IH.
Qed.





(* ================================================================== *)
(** * Further properties: what every reachable store satisfies *)
(* ================================================================== *)

(** ** Keys drawn from a sequence *)

Lemma serial_nil {A} (id : A -> Z) seq : serial id seq [].
Proof. split; constructor. Qed.

Lemma StronglySorted_snoc {A} (R : A -> A -> Prop) l x :
  StronglySorted R l -> Forall (fun a => R a x) l ->
  StronglySorted R (l ++ [x]).
Proof.
  induction 1 as [|y l Hs IH Hy]; intros Hx; cbn [app].
  - repeat constructor.
  - apply Forall_cons_iff in Hx as [Hyx Hx].
    constructor; [now apply IH|].
    apply Forall_app. split; [exact Hy | now repeat constructor].
Qed.

Lemma serial_snoc {A} (id : A -> Z) seq l x :
  serial id seq l -> id x = seq -> serial id (seq + 1) (l ++ [x]).
Proof.
  intros [Hs Hb] Hx. split.
  - apply StronglySorted_snoc; [exact Hs|].
    eapply Forall_impl; [|exact Hb]. cbn. intros; lia.
  - apply Forall_app. split.
    + eapply Forall_impl; [|exact Hb]. cbn. intros; lia.
    + constructor; [lia | constructor].
Qed.

Lemma StronglySorted_filter_keep {A} (R : A -> A -> Prop) (p : A -> bool) l :
  StronglySorted R l -> StronglySorted R (filter p l).
Proof.
  induction 1 as [|y l Hs IH Hy]; cbn [filter]; [constructor|].
  destruct (p y); [|exact IH].
  constructor; [exact IH | now apply Forall_filter_keep].
Qed.

Lemma serial_filter {A} (id : A -> Z) seq (p : A -> bool) l :
  serial id seq l -> serial id seq (filter p l).
Proof.
  intros [Hs Hb]. split.
  - now apply StronglySorted_filter_keep.
  - now apply Forall_filter_keep.
Qed.

Lemma serial_NoDup {A} (id : A -> Z) seq l :
  serial id seq l -> NoDup (map id l).
Proof.
  intros [Hs _]. induction Hs as [|y l Hs IH Hy]; cbn [map]; constructor.
  - rewrite in_map_iff. intros (z & Hz & Hin).
    rewrite Forall_forall in Hy. specialize (Hy z Hin). lia.
  - exact IH.
Qed.

(** ** Every request preserves well-formedness, on any host *)

Lemma wellformed_empty tza : wellformed_at tza empty_db.
Proof. split; cbn; try apply serial_nil; constructor. Qed.

Lemma wellformed_piano tza db date minutes :
  wellformed_at tza db ->
  wellformed_at tza (snd (post_api_piano tza date minutes db)).
Proof.
  intros [Hu Hk Hsh Hps Hwa Ht Hi Htx].
  rewrite post_api_piano_run_at. cbn [snd].
  destruct (150 <=? _); cbn [andb];
    [destruct (has_award _ _) eqn:Ha; cbn [negb]|];
    split;
    cbn [weekly_awards transactions piano_sessions tests incidents
         piano_sessions_id_seq weekly_awards_id_seq tests_id_seq
         incidents_id_seq transactions_id_seq];
    try assumption; try (now apply serial_snoc).
  - rewrite map_app. cbn [map wa_week_start].
    apply Permutation_NoDup
      with (l := piano_key tza date :: map wa_week_start (weekly_awards db)).
    + apply Permutation_cons_append.
    + constructor; [|exact Hu].
      rewrite in_map_iff. intros (a & Hwk & Hin).
      exact (proj1 (has_award_false _ _) Ha a Hin Hwk).
  - apply Forall_app. split; [exact Hk|].
    constructor; [|constructor]. now exists date.
  - apply Forall_app. split; [exact Hsh|].
    constructor; [|constructor]. left. split; reflexivity.
Qed.

Lemma wellformed_test tza db date subject score maxScore :
  wellformed_at tza db ->
  wellformed_at tza (snd (post_api_test date subject score maxScore db)).
Proof.
  intros [Hu Hk Hsh Hps Hwa Ht Hi Htx].
  rewrite post_api_test_run. cbn [snd].
  destruct (JSNumber.ge _ _); split;
    cbn [weekly_awards transactions piano_sessions tests incidents
         piano_sessions_id_seq weekly_awards_id_seq tests_id_seq
         incidents_id_seq transactions_id_seq];
    try assumption; try (now apply serial_snoc).
  apply Forall_app. split; [exact Hsh|].
  constructor; [|constructor]. right. left. split; reflexivity.
Qed.

Lemma wellformed_incident tza db date note :
  wellformed_at tza db ->
  wellformed_at tza (snd (post_api_incident date note db)).
Proof.
  intros [Hu Hk Hsh Hps Hwa Ht Hi Htx].
  rewrite post_api_incident_run. cbn [snd].
  split;
    cbn [weekly_awards transactions piano_sessions tests incidents
         piano_sessions_id_seq weekly_awards_id_seq tests_id_seq
         incidents_id_seq transactions_id_seq];
    try assumption; try (now apply serial_snoc).
  apply Forall_app. split; [exact Hsh|].
  constructor; [|constructor]. right. right. split; reflexivity.
Qed.

Lemma wellformed_delete tza db id :
  wellformed_at tza db ->
  wellformed_at tza (snd (delete_api_transaction tza id db)).
Proof.
  intros [Hu Hk Hsh Hps Hwa Ht Hi Htx].
  rewrite delete_api_transaction_run_at.
  destruct (find _ (transactions db)) as [tx|]; [|now split].
  cbn [snd].
  split;
    cbn [weekly_awards transactions piano_sessions tests incidents
         piano_sessions_id_seq weekly_awards_id_seq tests_id_seq
         incidents_id_seq transactions_id_seq];
    try assumption.
  - destruct (is_piano_award tx); [|exact Hu].
    rewrite map_filter_key. now apply NoDup_filter.
  - destruct (is_piano_award tx); [|exact Hk].
    now apply Forall_filter_keep.
  - now apply Forall_filter_keep.
  - destruct (is_piano_award tx); [|exact Hwa]. now apply serial_filter.
  - now apply serial_filter.
Qed.

Lemma wellformed_reset tza db :
  wellformed_at tza db -> wellformed_at tza (snd (post_api_reset db)).
Proof.
  intros _. rewrite post_api_reset_run.
  split; cbn; try apply serial_nil; constructor.
Qed.

Lemma wellformed_serve tza db r :
  wellformed_at tza db -> wellformed_at tza (serve_at tza db r).
Proof.
  destruct r; cbn [serve_at]; intros H.
  - now apply wellformed_piano.
  - now apply wellformed_test.
  - now apply wellformed_incident.
  - now apply wellformed_delete.
  - now apply wellformed_reset.
  - rewrite get_api_data_run. exact H.
Qed.

Lemma wellformed_from tza rs db :
  wellformed_at tza db -> wellformed_at tza (fold_left (serve_at tza) rs db).
Proof.
  revert db. induction rs as [|r rs IH]; intros db H; cbn [fold_left];
    [exact H|].
  apply IH. now apply wellformed_serve.
Qed.

Lemma wellformed_serve_all tza rs : wellformed_at tza (serve_all_at tza rs).
Proof. apply wellformed_from, wellformed_empty. Qed.

(** X7.  In every store that the server reaches, on any host, the ids of
    each of the five tables ascend in the order of insertion and lie below
    the next value of the table's sequence; in particular they are
    pairwise distinct. *)
Theorem ids_ascend tza rs :
  let db := serve_all_at tza rs in
  serial ps_id (piano_sessions_id_seq db) (piano_sessions db)
  /\ serial wa_id (weekly_awards_id_seq db) (weekly_awards db)
  /\ serial t_id (tests_id_seq db) (tests db)
  /\ serial inc_id (incidents_id_seq db) (incidents db)
  /\ serial tx_id (transactions_id_seq db) (transactions db)
  /\ NoDup (map tx_id (transactions db)).
Proof.
  cbv zeta. destruct (wellformed_serve_all tza rs) as [_ _ _ H1 H2 H3 H4 H5].
  repeat split; try apply H1; try apply H2; try apply H3; try apply H4;
    try apply H5.
  eapply serial_NoDup. exact H5.
Qed.

Lemma balance_sum db : balance db = sum_Z (map tx_amount (transactions db)).
Proof. unfold balance. rewrite get_api_data_run. reflexivity. Qed.

Lemma sum_Z_multiple l : Forall (fun z => z mod 50 = 0) l -> sum_Z l mod 50 = 0.
Proof.
  unfold sum_Z. induction 1 as [|z l Hz _ IH]; cbn [fold_right];
    [reflexivity|].
  Z.div_mod_to_equations. lia.
Qed.

(** X8.  In every store that the server reaches, on any host, each
    transaction is a ["piano"] row of +50, a ["test"] row of +100 or an
    ["incident"] row of -50, and the balance read is a multiple of 50. *)
Theorem transactions_have_three_shapes tza rs :
  let db := serve_all_at tza rs in
  Forall tx_shape (transactions db) /\ balance db mod 50 = 0.
Proof.
  cbv zeta. pose proof (wf_shapes _ _ (wellformed_serve_all tza rs)) as Hsh.
  split; [exact Hsh|].
  rewrite balance_sum. apply sum_Z_multiple.
  rewrite Forall_map. eapply Forall_impl; [|exact Hsh].
  intros t [[_ ->]|[[_ ->]|[_ ->]]]; reflexivity.
Qed.

(** ** Ids are not reused *)

Lemma old_ids_step tza db r t :
  In t (transactions (serve_at tza db r)) ->
  tx_id t < transactions_id_seq db ->
  In t (transactions db).
Proof.
  destruct r as [date minutes|date subject score maxScore|date note|id| |];
    cbn [serve_at].
  - rewrite post_api_piano_run_at. cbn [snd transactions].
    destruct (_ && _); [|tauto].
    rewrite in_app_iff. intros [H|[<-|[]]] Hlt; [exact H|].
    cbn [tx_id] in Hlt. lia.
  - rewrite post_api_test_run. cbn [snd transactions].
    destruct (JSNumber.ge _ _); [|tauto].
    rewrite in_app_iff. intros [H|[<-|[]]] Hlt; [exact H|].
    cbn [tx_id] in Hlt. lia.
  - rewrite post_api_incident_run. cbn [snd transactions].
    rewrite in_app_iff. intros [H|[<-|[]]] Hlt; [exact H|].
    cbn [tx_id] in Hlt. lia.
  - rewrite delete_api_transaction_run_at.
    destruct (find _ _); cbn [snd transactions]; [|tauto].
    rewrite filter_In. tauto.
  - rewrite post_api_reset_run. cbn [snd transactions]. contradiction.
  - rewrite get_api_data_run. tauto.
Qed.

Lemma sequence_step tza db r :
  transactions_id_seq db <= transactions_id_seq (serve_at tza db r).
Proof.
  destruct r as [date minutes|date subject score maxScore|date note|id| |];
    cbn [serve_at].
  - rewrite post_api_piano_run_at. cbn [snd transactions_id_seq].
    destruct (_ && _); lia.
  - rewrite post_api_test_run. cbn [snd transactions_id_seq].
    destruct (JSNumber.ge _ _); lia.
  - rewrite post_api_incident_run. cbn [snd transactions_id_seq]. lia.
  - rewrite delete_api_transaction_run_at.
    destruct (find _ _); cbn [snd transactions_id_seq]; lia.
  - rewrite post_api_reset_run. cbn [snd transactions_id_seq]. lia.
  - rewrite get_api_data_run. cbn [snd]. lia.
Qed.

Lemma old_ids_from tza rs : forall db t,
  In t (transactions (fold_left (serve_at tza) rs db)) ->
  tx_id t < transactions_id_seq db ->
  In t (transactions db).
Proof.
  induction rs as [|r rs IH]; intros db t Hin Hlt; cbn [fold_left] in Hin;
    [exact Hin|].
  apply (old_ids_step tza db r); [|exact Hlt].
  apply IH; [exact Hin|].
  pose proof (sequence_step tza db r). lia.
Qed.

(** X9.  A transaction id is never given to a second row: a row found
    later under the id of an earlier row is that row, whatever was logged,
    deleted or reset in between. *)
Theorem transaction_ids_not_reused tza rs rs' t t' :
  In t (transactions (serve_all_at tza rs)) ->
  In t' (transactions (serve_all_at tza (rs ++ rs'))) ->
  tx_id t' = tx_id t ->
  t' = t.
Proof.
  intros Hin Hin' Hid.
  destruct (wellformed_serve_all tza rs) as [_ _ _ _ _ _ _ Htx].
  assert (Hlt : tx_id t < transactions_id_seq (serve_all_at tza rs)).
  { destruct Htx as [_ Hb]. rewrite Forall_forall in Hb. now apply Hb. }
  unfold serve_all_at in Hin'. rewrite fold_left_app in Hin'.
  fold (serve_all_at tza rs) in Hin'.
  apply old_ids_from in Hin'; [|lia].
  pose proof (serial_NoDup _ _ _ Htx) as Hnd.
  pose proof (find_id_NoDup tx_id t _ Hnd Hin) as F1.
  pose proof (find_id_NoDup tx_id t' _ Hnd Hin') as F2.
  rewrite Hid in F2. congruence.
Qed.

Lemma transaction_ids_not_reused_witness :
  let rs := [LogIncident 20486 None] in
  let rs' := [LogTest 20487 "Math" 95 100; LogIncident 20490 None] in
  let t := mkTransaction 1 20486 "incident" (-50) "Crying incident" in
  (In t (transactions (serve_all_at UTC0 rs))
   /\ In t (transactions (serve_all_at UTC0 (rs ++ rs')))
   /\ tx_id t = tx_id t)
  /\ t = t.
Proof.
  cbv zeta.
  assert (H1 : In (mkTransaction 1 20486 "incident" (-50) "Crying incident")
                  (transactions (serve_all_at UTC0 [LogIncident 20486 None])))
    by (vm_compute; left; reflexivity).
  assert (H2 : In (mkTransaction 1 20486 "incident" (-50) "Crying incident")
                  (transactions
                     (serve_all_at UTC0
                        ([LogIncident 20486 None]
                           ++ [LogTest 20487 "Math" 95 100;
                               LogIncident 20490 None]))))
    by (vm_compute; left; reflexivity).
  split; [repeat split; assumption|].
  exact (transaction_ids_not_reused UTC0 _ _ _ _ H1 H2 eq_refl).
Defined.

(** ** Deleting a reward and earning it again *)

Lemma filter_all_kept {A} (p : A -> bool) l :
  (forall x, In x l -> p x = true) -> filter p l = l.
Proof. intros H. now apply forallb_filter_id, forallb_forall. Qed.

(** X10.  On a host that is not in UTC a deletion never removes an award
    row: the key it looks for is none of the keys that the piano rule has
    stored.  The award of a deleted reward stays, and with it the week
    stays closed. *)
Theorem deletion_keeps_awards_off_utc tza rs id :
  - JSDate.msPerDay < tza < JSDate.msPerDay -> tza <> 0 ->
  let db := serve_all_at tza rs in
  weekly_awards (snd (delete_api_transaction tza id db)) = weekly_awards db.
Proof.
  intros Htz Hnz. cbv zeta. rewrite delete_api_transaction_run_at.
  destruct (find _ _) as [tx|]; [|reflexivity].
  cbn [snd weekly_awards]. destruct (is_piano_award tx); [|reflexivity].
  apply filter_all_kept. intros a Ha.
  pose proof (wf_award_keys _ _ (wellformed_serve_all tza rs)) as Hk.
  rewrite Forall_forall in Hk. destruct (Hk a Ha) as (d & ->).
  apply negb_true_iff, Z.eqb_neq.
  now apply keys_distinct_off_utc.
Qed.

Lemma deletion_keeps_awards_off_utc_witness :
  (- JSDate.msPerDay < 28800000 < JSDate.msPerDay /\ 28800000 <> 0)
  /\ weekly_awards
       (snd (delete_api_transaction 28800000 1
               (serve_all_at 28800000 [LogPiano 20486 150])))
     = weekly_awards (serve_all_at 28800000 [LogPiano 20486 150])
  /\ weekly_awards (serve_all_at 28800000 [LogPiano 20486 150])
     = [mkWeeklyAward 1 20486]
  /\ transactions
       (snd (delete_api_transaction 28800000 1
               (serve_all_at 28800000 [LogPiano 20486 150]))) = [].
Proof.
  assert (H : - JSDate.msPerDay < 28800000 < JSDate.msPerDay)
    by (unfold JSDate.msPerDay; lia).
  assert (Hnz : 28800000 <> 0) by lia.
  split; [split; assumption|].
  split; [exact (deletion_keeps_awards_off_utc 28800000
                   [LogPiano 20486 150] 1 H Hnz)|].
  split; vm_compute; reflexivity.
Defined.

Lemma week_minutes_snoc ws l id date minutes :
  ws <= date <= ws + 6 ->
  week_minutes ws (l ++ [mkPianoSession id date minutes])
  = week_minutes ws l + minutes.
Proof.
  intros [H1 H2]. unfold week_minutes.
  rewrite filter_app, map_app, sum_Z_app. f_equal.
  cbn [filter ps_date]. apply Z.leb_le in H1, H2. rewrite H1, H2.
  cbn. lia.
Qed.

Lemma has_award_filtered ws l :
  has_award ws (filter (fun a => negb (wa_week_start a =? ws)) l) = false.
Proof.
  apply has_award_false. intros a Ha. apply filter_In in Ha as [_ Hn].
  now apply negb_true_iff, Z.eqb_neq in Hn.
Qed.



(* ================================================================== *)
(** * Further properties: the balance *)
(* ================================================================== *)

Lemma sum_Z_map_snoc {A} (f : A -> Z) l x :
  sum_Z (map f (l ++ [x])) = sum_Z (map f l) + f x.
Proof.
  rewrite map_app, sum_Z_app. unfold sum_Z. cbn [map fold_right]. lia.
Qed.

Lemma sum_Z_perm l1 l2 : Permutation l1 l2 -> sum_Z l1 = sum_Z l2.
Proof.
  unfold sum_Z.
  induction 1 as [|x l1 l2 _ IH|x y l|l1 l2 l3 _ IH1 _ IH2];
    cbn [fold_right]; lia.
Qed.

(** X12.  Each logging request moves the balance by exactly the reward that
    it reports: +50 when the piano response says [awarded], +100 when the
    test response says [awarded], nothing when it does not, and -50 for
    every incident. *)
Theorem balance_follows_reports tza db :
  (forall date minutes,
      balance (snd (post_api_piano tza date minutes db))
      = balance db
        + (if piano_reported (fst (post_api_piano tza date minutes db))
           then 50 else 0))
  /\ (forall date subject score maxScore,
        balance (snd (post_api_test date subject score maxScore db))
        = balance db
          + (if test_reported
                  (fst (post_api_test date subject score maxScore db))
             then 100 else 0))
  /\ (forall date note,
        balance (snd (post_api_incident date note db)) = balance db - 50).
Proof.
  repeat split; intros; rewrite !balance_sum.
  - rewrite post_api_piano_run_at.
    cbn [fst snd transactions piano_reported piano_awarded].
    destruct (_ && _); [|lia].
    rewrite sum_Z_map_snoc. reflexivity.
  - rewrite post_api_test_run.
    cbn [fst snd transactions test_reported test_awarded].
    destruct (JSNumber.ge _ _); [|lia].
    rewrite sum_Z_map_snoc. reflexivity.
  - rewrite post_api_incident_run. cbn [snd transactions].
    rewrite sum_Z_map_snoc. cbn [tx_amount]. lia.
Qed.

(** X13.  Deleting a stored transaction lowers the balance by exactly the
    amount of that transaction (it raises the balance by 50 for an
    incident), in any store whose transaction ids are distinct. *)
Theorem balance_after_deletion tza db tx :
  transactions_pkey db ->
  In tx (transactions db) ->
  balance (snd (delete_api_transaction tza (tx_id tx) db))
  = balance db - tx_amount tx.
Proof.
  intros Hpk Hin. rewrite !balance_sum, delete_api_transaction_run_at.
  rewrite (find_id_NoDup tx_id tx _ Hpk Hin). cbn [snd transactions].
  destruct (filter_id_NoDup tx_id tx _ Hpk Hin) as (l1 & l2 & E & F).
  rewrite F, E, !map_app, !sum_Z_app. cbn [map].
  unfold sum_Z at 4. cbn [fold_right]. fold (sum_Z (map tx_amount l2)). lia.
Qed.

Lemma balance_after_deletion_witness :
  let db := serve_all [LogTest 20486 "Math" 95 100; LogIncident 20487 None] in
  let tx := mkTransaction 2 20487 "incident" (-50) "Crying incident" in
  (transactions_pkey db /\ In tx (transactions db))
  /\ balance (snd (delete_api_transaction UTC0 (tx_id tx) db))
     = balance db - tx_amount tx.
Proof.
  cbv zeta.
  assert (Hpk : transactions_pkey
                  (serve_all [LogTest 20486 "Math" 95 100;
                              LogIncident 20487 None])).
  { vm_compute. constructor.
    - intros [H|[]]. discriminate H.
    - constructor; [intros [] | constructor]. }
  assert (Hin : In (mkTransaction 2 20487 "incident" (-50) "Crying incident")
                   (transactions
                      (serve_all [LogTest 20486 "Math" 95 100;
                                  LogIncident 20487 None])))
    by (vm_compute; right; left; reflexivity).
  exact (conj (conj Hpk Hin) (balance_after_deletion UTC0 _ _ Hpk Hin)).
Defined.

(** X14.  The balance of a read is the sum of the amounts of the
    transactions returned by that same read. *)
Theorem balance_matches_returned_rows db :
  exists body,
    get_api_data db = (json body, db)
    /\ data_balance body = sum_Z (map tx_amount (data_transactions body)).
Proof.
  eexists. split; [apply get_api_data_run|].
  cbn [data_balance data_transactions].
  apply sum_Z_perm, Permutation_map, order_by_perm.
Qed.

(* ================================================================== *)
(** * Further properties: what is never removed *)
(* ================================================================== *)

Lemma extends_refl {A} (l : list A) : extends l l.
Proof. exists []. now rewrite app_nil_r. Qed.

Lemma extends_snoc {A} (l : list A) x : extends l (l ++ [x]).
Proof. now exists [x]. Qed.

(** X15.  Only a reset removes piano sessions, tests or incidents, and only
    a reset or a deletion removes award rows or transactions: every other
    request leaves the rows of a table in place and at most appends to
    them. *)
Theorem only_reset_and_deletion_remove tza db r :
  r <> Reset ->
  let db' := serve_at tza db r in
  extends (piano_sessions db) (piano_sessions db')
  /\ extends (tests db) (tests db')
  /\ extends (incidents db) (incidents db')
  /\ ((forall id, r <> DeleteTransaction id) ->
      extends (weekly_awards db) (weekly_awards db')
      /\ extends (transactions db) (transactions db')).
Proof.
  intros Hr. cbv zeta.
  destruct r as [date minutes|date subject score maxScore|date note|id| |];
    cbn [serve_at]; try contradiction.
  - rewrite post_api_piano_run_at.
    cbn [snd piano_sessions tests incidents weekly_awards transactions].
    destruct (_ && _); repeat split;
      apply extends_refl || apply extends_snoc.
  - rewrite post_api_test_run.
    cbn [snd piano_sessions tests incidents weekly_awards transactions].
    destruct (JSNumber.ge _ _); repeat split;
      apply extends_refl || apply extends_snoc.
  - rewrite post_api_incident_run.
    cbn [snd piano_sessions tests incidents weekly_awards transactions].
    repeat split; apply extends_refl || apply extends_snoc.
  - rewrite delete_api_transaction_run_at.
    destruct (find _ _);
      cbn [snd piano_sessions tests incidents weekly_awards transactions];
      (split; [apply extends_refl|]);
      (split; [apply extends_refl|]);
      (split; [apply extends_refl|]);
      intros Hd; now contradiction (Hd id).
  - rewrite get_api_data_run. cbn [snd].
    repeat split; apply extends_refl.
Qed.

Lemma only_reset_and_deletion_remove_witness :
  LogPiano 20486 150 <> Reset
  /\ extends (piano_sessions empty_db)
             (piano_sessions (serve_at UTC0 empty_db (LogPiano 20486 150)))
  /\ extends (weekly_awards empty_db)
             (weekly_awards (serve_at UTC0 empty_db (LogPiano 20486 150))).
Proof.
  assert (H : LogPiano 20486 150 <> Reset) by discriminate.
  split; [exact H|].
  destruct (only_reset_and_deletion_remove UTC0 empty_db _ H)
    as (Hps & _ & _ & Hrest).
  split; [exact Hps|].
  apply Hrest. intros id. discriminate.
Defined.

(* ================================================================== *)
(** * Further properties: scores that cannot earn *)
(* ================================================================== *)

(** Rounding keeps the sign it is given. *)
Lemma binary_round_aux_sign sx mx ex lx :
  match binary_round_aux JSNumber.prec JSNumber.emax sx mx ex lx with
  | S754_zero s | S754_finite s _ _ | S754_infinity s => s = sx
  | S754_nan => True
  end.
Proof.
  unfold binary_round_aux.
  destruct (shr_fexp _ _ mx ex lx) as [mrs' e'].
  destruct (shr_fexp _ _ _ e' loc_Exact) as [mrs'' e''].
  destruct (shr_m mrs''); [reflexivity| |exact I].
  destruct (e'' <=? _); reflexivity.
Qed.

Lemma div_not_positive x y :
  not_positive x ->
  match y with S754_finite false _ _ | S754_infinity false => True
          | _ => False end ->
  not_positive (JSNumber.div x y).
Proof.
  destruct x as [sx|[|]| |[|] mx ex]; cbn [not_positive];
    try contradiction; intros _;
    destruct y as [sy|[|]| |[|] my ey]; try contradiction; intros _;
    try exact I.
  unfold JSNumber.div, SFdiv.
  destruct (SFdiv_core_binary _ _ _ _ _ _) as [[mz ez] lz].
  pose proof (binary_round_aux_sign (xorb true false) mz ez lz) as H.
  destruct (binary_round_aux _ _ _ _ _ _) as [s|s| |s m e];
    cbn [xorb] in H; subst; exact I.
Qed.

Lemma mul_100_not_positive x :
  not_positive x -> not_positive (JSNumber.mul x (JSNumber.of_Z 100)).
Proof.
  assert (E : exists m e, JSNumber.of_Z 100 = S754_finite false m e)
    by (vm_compute; eauto).
  destruct E as (m & e & ->).
  destruct x as [sx|[|]| |[|] mx ex]; cbn [not_positive];
    try contradiction; intros _; try exact I.
  unfold JSNumber.mul, SFmul.
  pose proof (binary_round_aux_sign (xorb true false)
                (Zpos (mx * m)) (ex + e) loc_Exact) as H.
  destruct (binary_round_aux _ _ _ _ _ _) as [s|s| |s m' e'];
    cbn [xorb] in H; subst; exact I.
Qed.

Lemma ge_95_not_positive x :
  not_positive x -> JSNumber.ge x (JSNumber.of_Z 95) = false.
Proof.
  assert (E : exists m e, JSNumber.of_Z 95 = S754_finite false m e)
    by (vm_compute; eauto).
  destruct E as (m & e & ->).
  destruct x as [sx|[|]| |[|] mx ex]; cbn [not_positive];
    try contradiction; intros _; reflexivity.
Qed.

Lemma of_Z_not_positive z : z <= 0 -> not_positive (JSNumber.of_Z z).
Proof.
  intros Hz. pose proof (JSNumberFacts.of_Z_shape z) as H.
  destruct z as [|p|p]; [| lia |];
    destruct (JSNumber.of_Z _) as [[|]|[|]| |[|] m e];
    try contradiction; exact I.
Qed.

Lemma of_Z_positive z :
  0 < z ->
  match JSNumber.of_Z z with
  | S754_finite false _ _ | S754_infinity false => True
  | _ => False
  end.
Proof.
  intros Hz. pose proof (JSNumberFacts.of_Z_shape z) as H.
  destruct z as [|p|p]; try lia. exact H.
Qed.



(* ================================================================== *)
(** * Further properties: one reward per week, on any host *)
(* ================================================================== *)

(** X17.  The piano handler does on every host at or east of UTC what it
    does in UTC, and the deletion handler does on every host at or west of
    UTC what it does in UTC. *)
Theorem handlers_as_in_utc tza db :
  - JSDate.msPerDay < tza < JSDate.msPerDay ->
  (0 <= tza ->
   forall date minutes,
     post_api_piano tza date minutes db = post_api_piano UTC0 date minutes db)
  /\ (tza <= 0 ->
      forall id,
        delete_api_transaction tza id db = delete_api_transaction UTC0 id db).
Proof.
  intros Htz. split.
  - intros H0 date minutes.
    rewrite post_api_piano_run_at, post_api_piano_run.
    rewrite piano_key_formula by exact Htz.
    destruct (Z.leb_spec 0 tza); [reflexivity | lia].
  - intros H0 id.
    rewrite delete_api_transaction_run_at, delete_api_transaction_run.
    destruct (find _ _) as [tx|]; [|reflexivity].
    rewrite deletion_key_formula by exact Htz.
    destruct (Z.leb_spec tza 0); [reflexivity | lia].
Qed.

Lemma handlers_as_in_utc_witness :
  (- JSDate.msPerDay < 28800000 < JSDate.msPerDay /\ 0 <= 28800000)
  /\ post_api_piano 28800000 20489 150 empty_db
     = post_api_piano UTC0 20489 150 empty_db.
Proof.
  assert (H : - JSDate.msPerDay < 28800000 < JSDate.msPerDay)
    by (unfold JSDate.msPerDay; lia).
  assert (H0 : 0 <= 28800000) by lia.
  exact (conj (conj H H0)
              (proj1 (handlers_as_in_utc 28800000 empty_db H) H0 20489 150)).
Defined.

Lemma single_rewards_piano tza db date minutes :
  single_rewards tza db ->
  single_rewards tza (snd (post_api_piano tza date minutes db)).
Proof.
  intros [Hnd Hincl]. rewrite post_api_piano_run_at. cbn [snd].
  destruct (150 <=? _); cbn [andb]; [|split; assumption].
  destruct (has_award _ _) eqn:Ha; cbn [negb]; [split; assumption|].
  unfold single_rewards, reward_keys in *.
  cbn [transactions weekly_awards].
  rewrite filter_app, !map_app. cbn [filter is_piano_award tx_type tx_amount].
  cbn [String.eqb Ascii.eqb Bool.eqb andb Z.ltb Z.compare map tx_date
       wa_week_start].
  split.
  - apply Permutation_NoDup
      with (l := piano_key tza date
                 :: map (fun t => piano_key tza (tx_date t))
                        (filter is_piano_award (transactions db))).
    + apply Permutation_cons_append.
    + constructor; [|exact Hnd].
      intros Hin. apply Hincl in Hin. rewrite in_map_iff in Hin.
      destruct Hin as (a & Hk & Hin).
      exact (proj1 (has_award_false _ _) Ha a Hin Hk).
  - intros k Hk. rewrite in_app_iff in Hk |- *.
    destruct Hk as [Hk|Hk]; [left; now apply Hincl | right; exact Hk].
Qed.

Lemma single_rewards_append_other tza db t :
  is_piano_award t = false ->
  map (fun t => piano_key tza (tx_date t))
      (filter is_piano_award (transactions db ++ [t]))
  = reward_keys tza db.
Proof.
  intros H. unfold reward_keys. rewrite filter_app. cbn [filter].
  rewrite H. now rewrite app_nil_r.
Qed.

Lemma reward_keys_delete tza db tx :
  transactions_pkey db -> In tx (transactions db) ->
  exists k1 k2,
    reward_keys tza db
    = k1 ++ (if is_piano_award tx then [piano_key tza (tx_date tx)] else [])
         ++ k2
    /\ map (fun t => piano_key tza (tx_date t))
           (filter is_piano_award
              (filter (fun t => negb (tx_id t =? tx_id tx)) (transactions db)))
       = k1 ++ k2.
Proof.
  intros Hpk Hin.
  destruct (filter_id_NoDup tx_id tx _ Hpk Hin) as (l1 & l2 & E & F).
  exists (map (fun t => piano_key tza (tx_date t)) (filter is_piano_award l1)),
         (map (fun t => piano_key tza (tx_date t)) (filter is_piano_award l2)).
  unfold reward_keys. rewrite F, E, !filter_app, !map_app. cbn [filter].
  split; [|reflexivity].
  destruct (is_piano_award tx); reflexivity.
Qed.

Lemma single_rewards_delete tza db id :
  - JSDate.msPerDay < tza < JSDate.msPerDay ->
  wellformed_at tza db -> single_rewards tza db ->
  single_rewards tza (snd (delete_api_transaction tza id db)).
Proof.
  intros Htz Hwf [Hnd Hincl]. rewrite delete_api_transaction_run_at.
  destruct (find _ (transactions db)) as [tx|] eqn:Hfind;
    [|split; assumption].
  apply find_some_id in Hfind as [Hin <-]. cbn [snd].
  pose proof (serial_NoDup _ _ _ (wf_transactions _ _ Hwf)) as Hpk.
  destruct (reward_keys_delete tza db tx Hpk Hin) as (k1 & k2 & E & F).
  unfold single_rewards. unfold reward_keys at 1 2.
  cbn [transactions weekly_awards]. rewrite F. rewrite E in Hnd, Hincl.
  destruct (is_piano_award tx); cbn [app] in Hnd, Hincl.
  - split; [now apply NoDup_remove_1 in Hnd|].
    intros k Hk. rewrite map_filter_key. apply filter_In. split.
    + apply Hincl. rewrite in_app_iff in Hk |- *. cbn [In]. tauto.
    + apply negb_true_iff, Z.eqb_neq. intros ->.
      destruct (Z.eq_dec tza 0) as [->|Hnz].
      * apply NoDup_remove_2 in Hnd. apply Hnd.
        rewrite <- (keys_equal_in_utc _ Htz) in Hk. exact Hk.
      * assert (Ha : In (deletion_key tza (tx_date tx))
                        (map wa_week_start (weekly_awards db))).
        { apply Hincl. rewrite in_app_iff in Hk |- *. cbn [In]. tauto. }
        apply in_map_iff in Ha as (a & Hka & Ha).
        pose proof (wf_award_keys _ _ Hwf) as Hkeys.
        rewrite Forall_forall in Hkeys. destruct (Hkeys a Ha) as (d & Hd).
        rewrite Hd in Hka.
        exact (keys_distinct_off_utc tza d (tx_date tx) Htz Hnz Hka).
  - split; assumption.
Qed.

Lemma single_rewards_serve tza db r :
  - JSDate.msPerDay < tza < JSDate.msPerDay ->
  wellformed_at tza db -> single_rewards tza db ->
  single_rewards tza (serve_at tza db r).
Proof.
  intros Htz Hwf Hs.
  destruct r as [date minutes|date subject score maxScore|date note|id| |];
    cbn [serve_at].
  - now apply single_rewards_piano.
  - rewrite post_api_test_run. cbn [snd]. destruct Hs as [Hnd Hincl].
    unfold single_rewards, reward_keys in *. cbn [transactions weekly_awards].
    destruct (JSNumber.ge _ _); [|split; assumption].
    rewrite single_rewards_append_other by reflexivity.
    split; assumption.
  - rewrite post_api_incident_run. cbn [snd]. destruct Hs as [Hnd Hincl].
    unfold single_rewards, reward_keys in *. cbn [transactions weekly_awards].
    rewrite single_rewards_append_other by reflexivity.
    split; assumption.
  - now apply single_rewards_delete.
  - rewrite post_api_reset_run. split; cbn; [constructor | intros k []].
  - rewrite get_api_data_run. exact Hs.
Qed.

Lemma single_rewards_serve_all tza rs :
  - JSDate.msPerDay < tza < JSDate.msPerDay ->
  single_rewards tza (serve_all_at tza rs).
Proof.
  intros Htz. unfold serve_all_at.
  assert (H0 : wellformed_at tza empty_db /\ single_rewards tza empty_db).
  { split; [apply wellformed_empty|].
    split; cbn; [constructor | intros k []]. }
  revert H0. generalize empty_db.
  induction rs as [|r rs IH]; intros db [Hwf Hs]; cbn [fold_left];
    [exact Hs|].
  apply IH. split.
  - now apply wellformed_serve.
  - now apply single_rewards_serve.
Qed.

Lemma rewards_of_key_count tza k l :
  List.length
    (filter (fun t => is_piano_award t && (piano_key tza (tx_date t) =? k)) l)
  = count_occ Z.eq_dec
      (map (fun t => piano_key tza (tx_date t)) (filter is_piano_award l)) k.
Proof.
  induction l as [|t l IH]; cbn [filter]; [reflexivity|].
  destruct (is_piano_award t); cbn [andb]; [|exact IH].
  cbn [map count_occ].
  destruct (Z.eqb_spec (piano_key tza (tx_date t)) k) as [E|E];
    destruct (Z.eq_dec (piano_key tza (tx_date t)) k); try contradiction;
    cbn [List.length]; now rewrite IH.
Qed.

(** X18.  On every host whose offset is less than a day, and after any
    sequence of requests: no week key has more than one award row, none has
    more than one ["piano"] transaction of positive amount, and a key with
    such a transaction has its award row. *)
Theorem one_reward_per_key tza rs k :
  - JSDate.msPerDay < tza < JSDate.msPerDay ->
  let db := serve_all_at tza rs in
  (List.length (awards_of_week k db) <= 1)%nat
  /\ (List.length (rewards_of_key tza k db) <= 1)%nat
  /\ (rewards_of_key tza k db <> [] ->
      exists a, In a (weekly_awards db) /\ wa_week_start a = k).
Proof.
  intros Htz. cbv zeta.
  destruct (single_rewards_serve_all tza rs Htz) as [Hnd Hincl].
  pose proof (wf_award_unique _ _ (wellformed_serve_all tza rs)) as Hu.
  split; [|split].
  - unfold awards_of_week. rewrite length_filter_count_occ.
    now apply NoDup_count_occ.
  - unfold rewards_of_key. rewrite rewards_of_key_count.
    now apply NoDup_count_occ.
  - intros Hne.
    assert (Hin : In k (reward_keys tza (serve_all_at tza rs))).
    { apply (count_occ_In Z.eq_dec). unfold reward_keys.
      rewrite <- rewards_of_key_count. fold (rewards_of_key tza k
                                               (serve_all_at tza rs)).
      destruct (rewards_of_key _ _ _); [contradiction | cbn; lia]. }
    apply Hincl, in_map_iff in Hin as (a & Ha & Hin).
    now exists a.
Qed.

Lemma one_reward_per_key_witness :
  - JSDate.msPerDay < 28800000 < JSDate.msPerDay
  /\ (List.length
        (awards_of_week 20486
           (serve_all_at 28800000
              [LogPiano 20486 150; DeleteTransaction 1; LogPiano 20487 150]))
      <= 1)%nat
  /\ (List.length
        (rewards_of_key 28800000 20486
           (serve_all_at 28800000
              [LogPiano 20486 150; DeleteTransaction 1; LogPiano 20487 150]))
      <= 1)%nat.
Proof.
  assert (H : - JSDate.msPerDay < 28800000 < JSDate.msPerDay)
    by (unfold JSDate.msPerDay; lia).
  destruct (one_reward_per_key 28800000
              [LogPiano 20486 150; DeleteTransaction 1; LogPiano 20487 150]
              20486 H) as (H1 & H2 & _).
  exact (conj H (conj H1 H2)).
Defined.
